(** * Workflow engine: process runner and debug pipelines

    A shallow embedding of
    - package [shell]: the [Options] record, its option functions and the
      process runner [run];
    - package [pipelines]: [Debug.Run] (shell based) and [Debug.Execute]
      (two concurrent jobs joined by an errgroup).

    Go pointers to mutable structs are modelled by state passing; the
    operating system, the Go scheduler and the child process are an explicit
    [World] value the functions read their outcomes from. *)

From Stdlib Require Import ZArith List String Ascii Bool Arith Lia Permutation.
Import ListNotations.

Local Open Scope string_scope.
Local Open Scope list_scope.

(* ===================================================================== *)
(** ** Package os/exec, as far as [shell.run] uses it *)
(* ===================================================================== *)

Module exec.

(** [os.ProcessState]: how a child that was waited for ended. *)
Inductive ProcessState : Type :=
| Exited (code : Z)
| Signaled (sig : Z).

(** [ProcessState.ExitCode]: the exit code of the exited process, or
    -1 if the process was terminated by a signal. *)
Definition ExitCode (st : ProcessState) : Z :=
  match st with
  | Exited code => code
  | Signaled _ => (-1)%Z
  end.

(** The dynamic types of the errors [shell.run] meets: [*exec.ExitError]
    and anything else. *)
Inductive error : Type :=
| ExitError (st : ProcessState)
| errorString (msg : string).

(** [errors.As(err, &exitCodeError)] with [exitCodeError : *exec.ExitError]. *)
Definition As_ExitError (err : option error) : option ProcessState :=
  match err with
  | Some (ExitError st) => Some st
  | _ => None
  end.

(** [io.Reader] and [io.Writer] values are handles. *)
Inductive Reader : Type := reader (fd : nat).
Inductive Writer : Type := writer (fd : nat).

(** [exec.Cmd]: the program, its arguments, the three streams, and the
    error [exec.Command] recorded when it could not resolve the program. *)
Record Cmd : Type := mkCmd {
  Path : string;
  Args : list string;
  Stdin : option Reader;
  Stdout : option Writer;
  Stderr : option Writer;
  Err : option error
}.

(** [Cmd.String]: the arguments as given when the program was not
    resolved, else the path followed by the arguments after [Args[0]]. *)
Definition String (c : Cmd) : string :=
  match Err c with
  | Some _ => String.concat " " (Args c)
  | None => String.concat " " (Path c :: tl (Args c))
  end.

End exec.

(* ===================================================================== *)
(** ** Package context *)
(* ===================================================================== *)

Module context.

(** A context is observed through its [Done()] channel only: [Done_at] is
    the instant the channel is closed, [None] when it never is. *)
Record Context : Type := mkContext { Done_at : option nat }.

Definition Background : Context := {| Done_at := None |}.

End context.

(* ===================================================================== *)
(** ** Package shell *)
(* ===================================================================== *)

Module shell.
Import exec context.

Definition ExitOK : Z := 0.
Definition ExitUnknown : Z := 232.
Definition ExitContextCancel : Z := 231.
Definition ExitKillFailure : Z := 230.

(** Options are flexible parameters for any command. *)
Record Options : Type := mkOptions {
  dryRunEnabled : bool;
  stdin : option Reader;
  stdout : option Writer;
  stderr : option Writer;
  ctx : option Context
}.

(** [new(Options)]: every field at its zero value. *)
Definition zeroOptions : Options :=
  {| dryRunEnabled := false; stdin := None; stdout := None;
     stderr := None; ctx := None |}.

(** [type OptionFunc func(o *Options)]: the pointer is threaded through. *)
Definition OptionFunc : Type := Options -> Options.

(** [(o *Options) apply(options ...OptionFunc)] *)
Definition apply (o : Options) (options : list OptionFunc) : Options :=
  fold_left (fun o optionFunc => optionFunc o) options o.

(** [newOptions(options ...OptionFunc)] *)
Definition newOptions (options : list OptionFunc) : Options :=
  apply zeroOptions options.

Definition WithDryRun (enabled : bool) : OptionFunc :=
  fun o => {| dryRunEnabled := enabled; stdin := stdin o; stdout := stdout o;
              stderr := stderr o; ctx := ctx o |}.

Definition WithIO (r : option Reader) (w e : option Writer) : OptionFunc :=
  fun o => {| dryRunEnabled := dryRunEnabled o; stdin := r; stdout := w;
              stderr := e; ctx := ctx o |}.

Definition WithStdin (r : option Reader) : OptionFunc :=
  fun o => {| dryRunEnabled := dryRunEnabled o; stdin := r; stdout := stdout o;
              stderr := stderr o; ctx := ctx o |}.

Definition WithStdout (w : option Writer) : OptionFunc :=
  fun o => {| dryRunEnabled := dryRunEnabled o; stdin := stdin o; stdout := w;
              stderr := stderr o; ctx := ctx o |}.

Definition WithStderr (w : option Writer) : OptionFunc :=
  fun o => {| dryRunEnabled := dryRunEnabled o; stdin := stdin o;
              stdout := stdout o; stderr := w; ctx := ctx o |}.

(** *** Calls of the option functions, as data

    A call site names one of the five constructors; [denote] gives the
    [OptionFunc] the call returns. *)
Inductive OptionCall : Type :=
| CallWithDryRun (enabled : bool)
| CallWithIO (r : option Reader) (w e : option Writer)
| CallWithStdin (r : option Reader)
| CallWithStdout (w : option Writer)
| CallWithStderr (w : option Writer).

Definition denote (c : OptionCall) : OptionFunc :=
  match c with
  | CallWithDryRun b => WithDryRun b
  | CallWithIO r w e => WithIO r w e
  | CallWithStdin r => WithStdin r
  | CallWithStdout w => WithStdout w
  | CallWithStderr w => WithStderr w
  end.

Definition applyCalls (o : Options) (cs : list OptionCall) : Options :=
  apply o (map denote cs).

(** The concern a call targets. *)
Inductive Concern : Type :=
| DryRunFlag | IOTriple | StdinOnly | StdoutOnly | StderrOnly.

Definition concern (c : OptionCall) : Concern :=
  match c with
  | CallWithDryRun _ => DryRunFlag
  | CallWithIO _ _ _ => IOTriple
  | CallWithStdin _ => StdinOnly
  | CallWithStdout _ => StdoutOnly
  | CallWithStderr _ => StderrOnly
  end.

(** The fields of [Options] and their contents. *)
Inductive Field : Type :=
| FdryRunEnabled | Fstdin | Fstdout | Fstderr | Fctx.

Inductive FieldValue : Type :=
| VBool (b : bool)
| VReader (r : option Reader)
| VWriter (w : option Writer)
| VContext (c : option Context).

Definition get (f : Field) (o : Options) : FieldValue :=
  match f with
  | FdryRunEnabled => VBool (dryRunEnabled o)
  | Fstdin => VReader (stdin o)
  | Fstdout => VWriter (stdout o)
  | Fstderr => VWriter (stderr o)
  | Fctx => VContext (ctx o)
  end.

(** The fields that make up a concern. *)
Definition belongs (f : Field) (c : Concern) : bool :=
  match c, f with
  | DryRunFlag, FdryRunEnabled => true
  | IOTriple, (Fstdin | Fstdout | Fstderr) => true
  | StdinOnly, Fstdin => true
  | StdoutOnly, Fstdout => true
  | StderrOnly, Fstderr => true
  | _, _ => false
  end.

(** *** The world around one call of [run] *)

(** The two communications of the [select] statement. *)
Inductive SelectCase : Type :=
| CaseCtxDone      (* case <-o.ctx.Done() *)
| CaseDoneChan.    (* case <-doneChan *)

(** What the operating system, the child and the Go scheduler decide.
    Instants are points of one logical clock. *)
Record World : Type := mkWorld {
  start_err : option error;   (* result of cmd.Start() *)
  wait_err : option error;    (* result of cmd.Wait() *)
  done_at : option nat;       (* instant the goroutine has sent on doneChan:
                                 the child has ended and Wait has returned;
                                 None when the child never ends *)
  kill_err : option error;    (* result of cmd.Process.Kill() *)
  select_at : nat;            (* instant run reaches the select statement *)
  select_pick : SelectCase    (* the pseudo-random choice select makes when
                                 both communications can proceed *)
}.

(** A channel operation fixed at instant [at_] can proceed at instant [t]. *)
Definition ready (at_ : option nat) (t : nat) : bool :=
  match at_ with
  | Some a => Nat.leb a t
  | None => false
  end.

(** The [select] statement of [run]: if a communication can proceed when
    the statement is reached, one that can is chosen (by [select_pick] when
    both can); otherwise the statement blocks until the first one can.
    [None]: neither ever can, the statement blocks for ever. *)
Definition select (c : Context) (w : World) : option SelectCase :=
  match ready (Done_at c) (select_at w), ready (done_at w) (select_at w) with
  | true, true => Some (select_pick w)
  | true, false => Some CaseCtxDone
  | false, true => Some CaseDoneChan
  | false, false =>
      match Done_at c, done_at w with
      | None, None => None
      | Some _, None => Some CaseCtxDone
      | None, Some _ => Some CaseDoneChan
      | Some tc, Some td =>
          if Nat.ltb tc td then Some CaseCtxDone
          else if Nat.ltb td tc then Some CaseDoneChan
          else Some (select_pick w)
      end
  end.

(** What [run] does to the outside, in order. *)
Inductive Effect : Type :=
| SlogInfo (msg : string) (dry_run : bool) (command : string)
| CmdStart (cmd : Cmd)     (* cmd.Start() is called on this command *)
| GoWait                   (* the goroutine calling cmd.Wait() is started *)
| ProcessKill.             (* cmd.Process.Kill() is called *)

Record Outcome : Type := mkOutcome {
  returned : option Z;     (* the int run returns; None: run never returns *)
  effects : list Effect;
  options_after : Options  (* *o when run is left *)
}.

(** [run(cmd *exec.Cmd, o *Options) int] *)
Definition run (cmd : Cmd) (o : Options) (w : World) : Outcome :=
  let log := [SlogInfo "shell exec" (dryRunEnabled o) (String cmd)] in
  if dryRunEnabled o then
    {| returned := Some ExitOK; effects := log; options_after := o |}
  else
    let cmd := {| Path := Path cmd; Args := Args cmd; Stdin := stdin o;
                  Stdout := stdout o; Stderr := stderr o; Err := Err cmd |} in
    match start_err w with
    | Some _ =>
        {| returned := Some ExitUnknown; effects := log ++ [CmdStart cmd];
           options_after := o |}
    | None =>
        let c := match ctx o with
                 | None => Background
                 | Some c => c
                 end in
        let o := {| dryRunEnabled := dryRunEnabled o; stdin := stdin o;
                    stdout := stdout o; stderr := stderr o; ctx := Some c |} in
        let started := log ++ [CmdStart cmd; GoWait] in
        match select c w with
        | None =>
            {| returned := None; effects := started; options_after := o |}
        | Some CaseCtxDone =>
            match kill_err w with
            | Some _ =>
                {| returned := Some ExitKillFailure;
                   effects := started ++ [ProcessKill]; options_after := o |}
            | None =>
                {| returned := Some ExitContextCancel;
                   effects := started ++ [ProcessKill]; options_after := o |}
            end
        | Some CaseDoneChan =>
            let runError := wait_err w in
            match As_ExitError runError with
            | Some exitCodeError =>
                {| returned := Some (ExitCode exitCodeError);
                   effects := started; options_after := o |}
            | None =>
                match runError with
                | Some _ =>
                    {| returned := Some ExitUnknown; effects := started;
                       options_after := o |}
                | None =>
                    {| returned := Some ExitOK; effects := started;
                       options_after := o |}
                end
            end
        end
    end.

End shell.

(* ===================================================================== *)
(** ** Package errors and the formatting verbs the pipelines use *)
(* ===================================================================== *)

Module errors.

(** The newline character. *)
Definition nl : string := String (ascii_of_nat 10) EmptyString.

(** Error values: a plain error carrying its message, or the value
    [errors.Join] builds ([*joinError] with its constituents). *)
#[local] Set Warnings "-register-all".
Inductive error : Type :=
| New (msg : string)
| joinError (errs : list error).

(** The [Error() string] method; a joined error prints its constituents
    separated by newlines. *)
Fixpoint Error (e : error) : string :=
  match e with
  | New msg => msg
  | joinError errs => String.concat nl (map Error errs)
  end.

(** The non-nil values of a list of errors, in order. *)
Fixpoint nonNil (errs : list (option error)) : list error :=
  match errs with
  | [] => []
  | None :: rest => nonNil rest
  | Some e :: rest => e :: nonNil rest
  end.

(** [errors.Join(errs ...error)]: nil if every value is nil, else an error
    wrapping the non-nil values in the order given. *)
Definition Join (errs : list (option error)) : option error :=
  match List.length (nonNil errs) with
  | O => None
  | S _ => Some (joinError (nonNil errs))
  end.

(** [joinError.Unwrap() []error] *)
Definition Unwrap (e : option error) : list error :=
  match e with
  | Some (joinError errs) => errs
  | _ => []
  end.

End errors.

(* ===================================================================== *)
(** ** Package pipelines *)
(* ===================================================================== *)

Module pipelines.
Import exec errors.

(** *** The shell based debug pipeline (debug.go) *)
Module Debug.

Record Debug : Type := mkDebug {
  Stdout : option Writer;
  Stderr : option Writer;
  DryRunEnabled : bool
}.

Definition NewDebug (stdoutW stderrW : option Writer) : Debug :=
  {| Stdout := stdoutW; Stderr := stderrW; DryRunEnabled := false |}.

(** Modelled from the spec: the Command Builder of package shell
    ([GrypeCommand], [SyftCommand], [PodmanCommand], [DockerCommand] and
    their methods [Version], [ScanImage], [WithDryRun]) is not among the
    sources. A built command is the record of what the call site hands
    over: the tool, the operation, the two streams and the dry-run flag. *)
Inductive Tool : Type := Grype | Syft | Podman | Docker.

Inductive Operation : Type :=
| NoOperation
| Version
| ScanImage (imageTarball imageSbom : string).

Record Command : Type := mkCommand {
  tool : Tool;
  operation : Operation;
  cmdStdout : option Writer;
  cmdStderr : option Writer;
  dryRun : bool
}.

Definition newCommand (t : Tool) (out err : option Writer) : Command :=
  {| tool := t; operation := NoOperation; cmdStdout := out;
     cmdStderr := err; dryRun := false |}.

Definition GrypeCommand := newCommand Grype.
Definition SyftCommand := newCommand Syft.
Definition PodmanCommand := newCommand Podman.
Definition DockerCommand := newCommand Docker.

Definition withOperation (op : Operation) (c : Command) : Command :=
  {| tool := tool c; operation := op; cmdStdout := cmdStdout c;
     cmdStderr := cmdStderr c; dryRun := dryRun c |}.

Definition WithDryRun (enabled : bool) (c : Command) : Command :=
  {| tool := tool c; operation := operation c; cmdStdout := cmdStdout c;
     cmdStderr := cmdStderr c; dryRun := enabled |}.

(** The operating system calls made before the commands. *)
Record World : Type := mkWorld {
  Getwd : string + error;       (* os.Getwd(): the directory or an error *)
  MkdirAll : option error       (* os.MkdirAll(artifactDir, os.ModePerm) *)
}.

Inductive Level : Type := LevelInfo | LevelWarn | LevelError.

(** What [Run] does to the outside, in order. *)
Inductive Event : Type :=
| Log (lvl : Level) (msg : string)
| MkdirAllCalled (elems : list string)  (* on filepath.Join(elems...) *)
| Ran (c : Command)                     (* c.Run() *)
| RanLogErrorAsWarning (c : Command).   (* c.RunLogErrorAsWarning() *)

Inductive Outcome : Type :=
| OsExit (code : Z) (events : list Event)             (* os.Exit(code) *)
| Returned (err : option error) (events : list Event).

Definition Sprintln (e : error) : string := Error e ++ nl.

Section Terminals.

(** The two terminals of a built command are not among the sources;
    [Debug.Run] is defined for any behaviour of [Run()] and
    [RunLogErrorAsWarning()]. *)
Variable commandRun : Command -> option error.
Variable commandRunLogErrorAsWarning : Command -> option error.

Definition imageTarball : string :=
  "./test/.artifacts/build-image/test-local.tar".
Definition imageSbom : string := "./test/.artifacts/sbom/sbom.json".

(** The five commands of the pipeline, in source order. *)
Definition grypeVersion (d : Debug) : Command :=
  WithDryRun (DryRunEnabled d)
    (withOperation Version (GrypeCommand (Stdout d) (Stderr d))).
Definition syftVersion (d : Debug) : Command :=
  WithDryRun (DryRunEnabled d)
    (withOperation Version (SyftCommand (Stdout d) (Stderr d))).
Definition syftScanImage (d : Debug) : Command :=
  WithDryRun (DryRunEnabled d)
    (withOperation (ScanImage imageTarball imageSbom)
       (SyftCommand (Stdout d) (Stderr d))).
Definition podmanVersion (d : Debug) : Command :=
  WithDryRun (DryRunEnabled d)
    (withOperation Version (PodmanCommand (Stdout d) (Stderr d))).
Definition dockerVersion (d : Debug) : Command :=
  WithDryRun (DryRunEnabled d)
    (withOperation Version (DockerCommand (Stdout d) (Stderr d))).

(** [func (d *Debug) Run() error] *)
Definition Run (d : Debug) (w : World) : Outcome :=
  let ev := [Log LevelInfo "start"] in
  match Getwd w with
  | inr err => OsExit 1 (ev ++ [Log LevelError (Sprintln err)])
  | inl pwd =>
      let ev := ev ++ [Log LevelInfo ("Current directory: " ++ pwd)] in
      let ev := ev ++ [MkdirAllCalled
                         [pwd; "test"; ".artifacts"; "build-image"]] in
      match MkdirAll w with
      | Some err => OsExit 1 (ev ++ [Log LevelError (Sprintln err)])
      | None =>
          let e1 := commandRun (grypeVersion d) in
          let e2 := commandRun (syftVersion d) in
          let e3 := commandRun (syftScanImage d) in
          let errs := Join [e1; e2; e3] in
          let _ := commandRunLogErrorAsWarning (podmanVersion d) in
          let _ := commandRunLogErrorAsWarning (dockerVersion d) in
          Returned errs
            (ev ++ [Ran (grypeVersion d); Ran (syftVersion d);
                    Ran (syftScanImage d);
                    RanLogErrorAsWarning (podmanVersion d);
                    RanLogErrorAsWarning (dockerVersion d);
                    Log LevelInfo "complete"])
      end
  end.

End Terminals.

(** What a call of the log-as-warning terminal leaves behind. *)
Record Terminal : Type := mkTerminal {
  finished : bool;              (* the call returns *)
  err : option error;           (* the error handed to the caller *)
  logged : list (Level * Z)     (* log records, with the exit outcome *)
}.

(** Modelled from the spec: the terminal [RunLogErrorAsWarning] of a
    built command is not among the sources. It hands the invocation to
    the Process Runner; a non-success Exit Outcome is not propagated but
    recorded as a warning-level event, and no error reaches the caller. *)
Definition RunLogErrorAsWarning (cmd : Cmd) (o : shell.Options)
    (w : shell.World) : Terminal :=
  match shell.returned (shell.run cmd o w) with
  | None => {| finished := false; err := None; logged := [] |}
  | Some code =>
      if (code =? shell.ExitOK)%Z
      then {| finished := true; err := None; logged := [] |}
      else {| finished := true; err := None;
              logged := [(LevelWarn, code)] |}
  end.

End Debug.

(** *** The container based debug pipeline ([Debug.Execute])

    [Execute] starts two goroutines through an [errgroup.Group] and waits
    for both. The three threads are interleaved by a schedule; each thread
    advances by the steps below. *)
Module DebugPipeline.

Inductive Thread : Type := Main | Job1 | Job2.

(** Where a goroutine handed to [errGroup.Go] stands. *)
Inductive Goroutine : Type :=
| NotStarted                        (* errGroup.Go not yet called *)
| Started                           (* about to call its job *)
| Assigned (err : option error)     (* result variable written, err held *)
| Done.                             (* err handed to the group *)

(** Where [Execute] itself stands. *)
Inductive Position : Type :=
| AtGo1 | AtGo2 | AtWait | AtWrite | AtReturn | Left.

Inductive Event : Type :=
| Write (payload : string)          (* p.stdout.Write, from r.WriteTo *)
| Return (err : option error).      (* Execute returns err *)

Record State : Type := mkState {
  pos : Position;
  job1 : Goroutine;
  job2 : Goroutine;
  debugOutput : string;
  systemInfo : string;
  groupErr : option error;          (* errgroup's first non-nil error *)
  err : option error;               (* err := errGroup.Wait() *)
  events : list Event
}.

(** [var debugOutput, systemInfo string] and an empty group. *)
Definition initial : State :=
  {| pos := AtGo1; job1 := NotStarted; job2 := NotStarted;
     debugOutput := ""; systemInfo := ""; groupErr := None; err := None;
     events := [] |}.

Definition isDone (g : Goroutine) : bool :=
  match g with
  | Done => true
  | _ => false
  end.

(** errgroup keeps the first non-nil error it is handed ([errOnce]). *)
Definition record (group : option error) (e : option error) : option error :=
  match e, group with
  | Some _, None => e
  | _, _ => group
  end.

(** [fmt.Sprintf("debug output:\n%s\nsystem information:\n%s\n", a, b)] *)
Definition report (a b : string) : string :=
  "debug output:" ++ nl ++ a ++ nl ++ "system information:" ++ nl ++ b ++ nl.

Section Jobs.

(** [jobs.RunDebug] and [jobs.RunDebugSysInfo] are not among the
    sources: each is the pair (string, error) its one call returns. *)
Variable RunDebug : string * option error.
Variable RunDebugSysInfo : string * option error.

Definition stepMain (s : State) : State :=
  match pos s with
  | AtGo1 =>
      {| pos := AtGo2; job1 := Started; job2 := job2 s;
         debugOutput := debugOutput s; systemInfo := systemInfo s;
         groupErr := groupErr s; err := err s; events := events s |}
  | AtGo2 =>
      {| pos := AtWait; job1 := job1 s; job2 := Started;
         debugOutput := debugOutput s; systemInfo := systemInfo s;
         groupErr := groupErr s; err := err s; events := events s |}
  | AtWait =>
      if isDone (job1 s) && isDone (job2 s) then
        {| pos := AtWrite; job1 := job1 s; job2 := job2 s;
           debugOutput := debugOutput s; systemInfo := systemInfo s;
           groupErr := groupErr s; err := groupErr s;
           events := events s |}
      else s
  | AtWrite =>
      {| pos := AtReturn; job1 := job1 s; job2 := job2 s;
         debugOutput := debugOutput s; systemInfo := systemInfo s;
         groupErr := groupErr s; err := err s;
         events := events s
                   ++ [Write (report (debugOutput s) (systemInfo s))] |}
  | AtReturn =>
      {| pos := Left; job1 := job1 s; job2 := job2 s;
         debugOutput := debugOutput s; systemInfo := systemInfo s;
         groupErr := groupErr s; err := err s;
         events := events s ++ [Return (err s)] |}
  | Left => s
  end.

(** [debugOutput, err = jobs.RunDebug(...); return err] *)
Definition stepJob1 (s : State) : State :=
  match job1 s with
  | Started =>
      {| pos := pos s; job1 := Assigned (snd RunDebug); job2 := job2 s;
         debugOutput := fst RunDebug; systemInfo := systemInfo s;
         groupErr := groupErr s; err := err s; events := events s |}
  | Assigned e =>
      {| pos := pos s; job1 := Done; job2 := job2 s;
         debugOutput := debugOutput s; systemInfo := systemInfo s;
         groupErr := record (groupErr s) e; err := err s;
         events := events s |}
  | NotStarted | Done => s
  end.

(** [systemInfo, err = jobs.RunDebugSysInfo(...); return err] *)
Definition stepJob2 (s : State) : State :=
  match job2 s with
  | Started =>
      {| pos := pos s; job1 := job1 s;
         job2 := Assigned (snd RunDebugSysInfo);
         debugOutput := debugOutput s;
         systemInfo := fst RunDebugSysInfo;
         groupErr := groupErr s; err := err s; events := events s |}
  | Assigned e =>
      {| pos := pos s; job1 := job1 s; job2 := Done;
         debugOutput := debugOutput s; systemInfo := systemInfo s;
         groupErr := record (groupErr s) e; err := err s;
         events := events s |}
  | NotStarted | Done => s
  end.

(** One turn of the scheduler; a thread that cannot move stays put. *)
Definition step (s : State) (t : Thread) : State :=
  match t with
  | Main => stepMain s
  | Job1 => stepJob1 s
  | Job2 => stepJob2 s
  end.

Definition runFrom (s : State) (schedule : list Thread) : State :=
  fold_left step schedule s.

(** [func (p *Debug) Execute() error] under a schedule. *)
Definition Execute (schedule : list Thread) : State :=
  runFrom initial schedule.

(** A schedule that lets every thread finish from any state. *)
Definition drain : list Thread :=
  [Main; Main; Job1; Job1; Job2; Job2; Main; Main; Main].

End Jobs.

End DebugPipeline.

(** *** The image scan pipeline ([ImageScan]) *)
Module ImageScan.

Definition mockSBOMFilename : string :=
  "../../test/ubuntu_latest_20240125.syft_sbom.json".

(** [ArtifactConfig] is declared outside the sources; these are the fields
    [ImageScan] reads. *)
Record ArtifactConfig : Type := mkArtifactConfig {
  Directory : string;
  SBOMFilename : string;
  GrypeFilename : string
}.

(** A [*slog.Logger]: the attributes attached with [With], in order. *)
Inductive AttrValue : Type :=
| AttrString (s : string)
| AttrBool (b : bool).

Definition Logger : Type := list (string * AttrValue).

Record ImageScan : Type := mkImageScan {
  Stdout : option Writer;
  Stderr : option Writer;
  logger : Logger;
  DryRunEnabled : bool;
  artifactConfig : ArtifactConfig
}.

(** [func (p *ImageScan) WithArtifactConfig(config ArtifactConfig) *ImageScan] *)
Definition WithArtifactConfig (config : ArtifactConfig) (p : ImageScan)
  : ImageScan :=
  {| Stdout := Stdout p; Stderr := Stderr p; logger := logger p;
     DryRunEnabled := DryRunEnabled p; artifactConfig := config |}.

(** [NewImageScan(stdout, stderr)]; [tempDir] is what [os.TempDir()] gives. *)
Definition NewImageScan (tempDir : string) (stdout stderr : option Writer)
  : ImageScan :=
  {| Stdout := stdout; Stderr := stderr;
     logger := [("pipeline", AttrString "image_scan")];
     DryRunEnabled := false;
     artifactConfig := {| Directory := tempDir; SBOMFilename := "sbom.json";
                          GrypeFilename := "" |} |}.

(** A file name: a literal, or [path.Join] of its elements. *)
Inductive Path : Type :=
| Literal (s : string)
| PathJoin (elems : list string).

(** The flags of package os ([O_CREATE] with its Linux value). *)
Definition O_RDONLY : Z := 0.
Definition O_WRONLY : Z := 1.
Definition O_CREATE : Z := 64.

(** An open [*os.File]: the name and the flag it was opened with. *)
Record File : Type := mkFile {
  name : Path;
  flag : Z
}.

(** The reading side of an [io.Copy]: a file, or the [bytes.Buffer] that
    holds the output of grype. *)
Inductive Source : Type :=
| FromFile (f : File)
| FromBuffer.

(** The command [shell.GrypeCommand(buf, p.Stderr).ScanSBOM(name)
    .WithDryRun(flag)] builds; the builder is not among the sources, the
    record holds what the call site hands over (stdout is the buffer). *)
Record ScanSBOM : Type := mkScanSBOM {
  sbom : string;
  scanStderr : option Writer;
  dryRun : bool
}.

(** The file system and the grype command, as [Run] meets them. *)
Record World : Type := mkWorld {
  OpenFile : Path -> Z -> Z -> option error;  (* os.OpenFile(name, flag, perm);
                                                 os.Open(name) is
                                                 OpenFile(name, O_RDONLY, 0) *)
  Copy : File -> Source -> option error;      (* io.Copy(dst, src) *)
  GrypeRun : ScanSBOM -> option error;        (* the terminal Run() *)
  size : Path -> nat                          (* bytes held by the named file *)
}.

Inductive Event : Type :=
| LogDebug (l : Logger) (msg : string) (dest : Path)
| OsOpenFile (name : Path) (flag perm : Z)
| IoCopy (dst : File) (src : Source)
| RanGrype (c : ScanSBOM).

Record Result : Type := mkResult {
  err : option error;       (* the error Run returns *)
  events : list Event;      (* what Run did, in order *)
  after : ImageScan         (* *p when Run is left *)
}.

(** [func (p *ImageScan) Run() error] *)
Definition Run (p : ImageScan) (w : World) : Result :=
  let cfg := artifactConfig p in
  let l := logger p ++ [("dry_run_enabled", AttrBool (DryRunEnabled p))] in
  let l := l ++ [("artifact_config.directory", AttrString (Directory cfg));
                 ("artifact_config.sbom_filename", AttrString (SBOMFilename cfg));
                 ("artifact_config.grype_filename",
                  AttrString (GrypeFilename cfg))] in
  let p := {| Stdout := Stdout p; Stderr := Stderr p; logger := l;
              DryRunEnabled := DryRunEnabled p; artifactConfig := cfg |} in
  let sbomFilename := PathJoin [Directory cfg; SBOMFilename cfg] in
  let ev := [LogDebug l "SIMULATED: create SBOM by copying" sbomFilename;
             OsOpenFile (Literal mockSBOMFilename) O_RDONLY 0] in
  match OpenFile w (Literal mockSBOMFilename) O_RDONLY 0 with
  | Some e => {| err := Some e; events := ev; after := p |}
  | None =>
  let sbomFile := {| name := Literal mockSBOMFilename; flag := O_RDONLY |} in
  let ev := ev ++ [OsOpenFile sbomFilename O_RDONLY 0] in
  match OpenFile w sbomFilename O_RDONLY 0 with
  | Some e => {| err := Some e; events := ev; after := p |}
  | None =>
  let f := {| name := sbomFilename; flag := O_RDONLY |} in
  let ev := ev ++ [IoCopy f (FromFile sbomFile)] in
  match Copy w f (FromFile sbomFile) with
  | Some e => {| err := Some e; events := ev; after := p |}
  | None =>
  let scan := {| sbom := SBOMFilename cfg; scanStderr := Stderr p;
                 dryRun := DryRunEnabled p |} in
  let ev := ev ++ [RanGrype scan] in
  match GrypeRun w scan with
  | Some e => {| err := Some e; events := ev; after := p |}
  | None =>
  let grypeFilename := PathJoin [Directory cfg; GrypeFilename cfg] in
  let ev := ev ++ [LogDebug l "open grype artifact" grypeFilename;
                   OsOpenFile grypeFilename (Z.lor O_CREATE O_WRONLY) 420] in
  match OpenFile w grypeFilename (Z.lor O_CREATE O_WRONLY) 420 with
  | Some e => {| err := Some e; events := ev; after := p |}
  | None =>
  let grypeFile := {| name := grypeFilename;
                      flag := Z.lor O_CREATE O_WRONLY |} in
  let ev := ev ++ [LogDebug l "save grype artifact" grypeFilename;
                   IoCopy grypeFile FromBuffer] in
  match Copy w grypeFile FromBuffer with
  | Some e => {| err := Some e; events := ev; after := p |}
  | None => {| err := None; events := ev; after := p |}
  end end end end end end.

End ImageScan.

End pipelines.

(* ===================================================================== *)
(** ** Vocabulary of the statements *)
(* ===================================================================== *)

Module Spec.
Import exec context shell.

(** Two option records agree outside the fields of a concern. *)
Definition agreeOutside (c : Concern) (o1 o2 : Options) : Prop :=
  forall fld, belongs fld c = false -> get fld o1 = get fld o2.

(** Every field of the concern of [f] is a field of the concern of [g]. *)
Definition covers (g f : OptionCall) : bool :=
  forallb (fun fld => implb (belongs fld (concern f)) (belongs fld (concern g)))
          [FdryRunEnabled; Fstdin; Fstdout; Fstderr; Fctx].

(** The context [run] selects on: [o.ctx], or the background context
    when [o.ctx] is nil. *)
Definition contextOf (o : Options) : Context :=
  match ctx o with
  | None => Background
  | Some c => c
  end.

(** The cancellation token fires strictly before the child's end is
    delivered (or the child never ends). *)
Definition cancelFirst (c : Context) (w : World) : bool :=
  match Done_at c, done_at w with
  | Some tc, Some td => Nat.ltb tc td
  | Some _, None => true
  | None, _ => false
  end.

(** The child's end is delivered strictly before the cancellation token
    fires (or the token never fires). *)
Definition doneFirst (c : Context) (w : World) : bool :=
  match done_at w, Done_at c with
  | Some td, Some tc => Nat.ltb td tc
  | Some _, None => true
  | None, _ => false
  end.

(** The code the cancellation branch returns. *)
Definition killOutcome (w : World) : Z :=
  match kill_err w with
  | Some _ => ExitKillFailure
  | None => ExitContextCancel
  end.

(** One of the four sentinel codes. *)
Definition sentinel (r : Z) : Prop :=
  r = ExitOK \/ r = ExitKillFailure \/ r = ExitContextCancel
  \/ r = ExitUnknown.

(** The exit code a child ended with; a child ended by a signal has none. *)
Definition ownExitCode (err : option error) : option Z :=
  match err with
  | Some (ExitError (Exited code)) => Some code
  | _ => None
  end.

(** A plain command. *)
Definition someCmd : Cmd :=
  {| Path := "/usr/bin/grype"; Args := ["grype"; "version"];
     Stdin := None; Stdout := None; Stderr := None; Err := None |}.

(** A command whose program [exec.Command] could not find. *)
Definition missingCmd : Cmd :=
  {| Path := "no-such-tool"; Args := ["no-such-tool"; "--flag"; "target"];
     Stdin := None; Stdout := None; Stderr := None;
     Err := Some (errorString "executable file not found in $PATH") |}.

(** *** Reachable states of [Debug.Execute] *)

Import errors pipelines.DebugPipeline.

(** The goroutine has written its result variable. *)
Definition assigned (g : Goroutine) : bool :=
  match g with
  | Assigned _ | Done => true
  | NotStarted | Started => false
  end.

(** The error a goroutine holds between its two steps is its job's. *)
Definition holds (g : Goroutine) (e : option error) : Prop :=
  match g with
  | Assigned x => x = e
  | _ => True
  end.

(** What every state reached from [initial] satisfies, for jobs returning
    [(a, ea)] and [(b, eb)]. *)
Definition reachable (a : string) (ea : option error) (b : string)
    (eb : option error) (s : State) : Prop :=
  debugOutput s = (if assigned (job1 s) then a else "")
  /\ systemInfo s = (if assigned (job2 s) then b else "")
  /\ holds (job1 s) ea /\ holds (job2 s) eb
  /\ (isDone (job1 s) = true -> ea <> None -> groupErr s <> None)
  /\ (isDone (job2 s) = true -> eb <> None -> groupErr s <> None)
  /\ (forall x, groupErr s = Some x ->
                (isDone (job1 s) = true /\ ea = Some x)
                \/ (isDone (job2 s) = true /\ eb = Some x))
  /\ match pos s with
     | AtGo1 => job1 s = NotStarted /\ job2 s = NotStarted /\ events s = []
     | AtGo2 => job1 s <> NotStarted /\ job2 s = NotStarted /\ events s = []
     | AtWait => job1 s <> NotStarted /\ job2 s <> NotStarted /\ events s = []
     | AtWrite =>
         job1 s = Done /\ job2 s = Done /\ err s = groupErr s
         /\ events s = []
     | AtReturn =>
         job1 s = Done /\ job2 s = Done /\ err s = groupErr s
         /\ events s = [Write (report a b)]
     | Left =>
         job1 s = Done /\ job2 s = Done /\ err s = groupErr s
         /\ events s = [Write (report a b); Return (err s)]
     end.

(** Two schedules: under [job1First] the first goroutine is done before
    the second starts; under [job2First] the second is done first. *)
Definition job1First : list Thread :=
  [Main; Job1; Job1; Main; Job2; Job2; Main; Main; Main].
Definition job2First : list Thread :=
  [Main; Main; Job2; Job1; Job2; Main; Job1; Main; Main; Main].

(** A non-nil error. *)
Definition isSome (e : option error) : bool :=
  match e with
  | Some _ => true
  | None => false
  end.

(** Two behaviours of the terminals of a built command: every command
    succeeds; the syft commands fail, each with its own message. *)
Definition allSucceed (c : pipelines.Debug.Command) : option error := None.

Definition syftFails (c : pipelines.Debug.Command) : option error :=
  match pipelines.Debug.tool c, pipelines.Debug.operation c with
  | pipelines.Debug.Syft, pipelines.Debug.Version =>
      Some (New "syft version: exit status 127")
  | pipelines.Debug.Syft, pipelines.Debug.ScanImage _ _ =>
      Some (New "syft scan: exit status 1")
  | _, _ => None
  end.

Definition alwaysFails (c : pipelines.Debug.Command) : option error :=
  Some (New "command failed").

Definition workDir : pipelines.Debug.World :=
  {| pipelines.Debug.Getwd := inl "/work"; pipelines.Debug.MkdirAll := None |}.

End Spec.
Import Spec.

(* ===================================================================== *)
(** ** Vocabulary of the further statements *)
(* ===================================================================== *)

Module OptionSpec.
Import exec context shell.

(** The call writes the field. *)
Definition touches (fld : Field) (c : OptionCall) : bool :=
  belongs fld (concern c).

(** How many calls of a list write the field. *)
Definition writers (fld : Field) (cs : list OptionCall) : nat :=
  List.length (filter (touches fld) cs).

(** No field is written by two calls of the list. *)
Definition atMostOneWriter (cs : list OptionCall) : Prop :=
  forall fld, writers fld cs <= 1.

(** The command [run] hands to [cmd.Start]. *)
Definition startedCmd (cmd : Cmd) (o : Options) : Cmd :=
  {| Path := Path cmd; Args := Args cmd; Stdin := stdin o;
     Stdout := stdout o; Stderr := stderr o; Err := Err cmd |}.

(** What [run] returns on the [doneChan] case, by the result of [cmd.Wait]. *)
Definition waitOutcome (w : World) : Z :=
  match wait_err w with
  | None => ExitOK
  | Some (ExitError st) => ExitCode st
  | Some (errorString _) => ExitUnknown
  end.

End OptionSpec.
Import OptionSpec.

Module DebugMayBlock.
Import exec errors pipelines.Debug.

(** [Debug.Run] of debug.go once more, now with commands that may never
    return: the process runner does not return when the child never ends
    and no token fires, and then neither does the terminal that called it,
    nor [Debug.Run]. *)

(** A terminal call ([Run()] or [RunLogErrorAsWarning()]) of a built
    command: [Some err] when the call returns [err], [None] when it never
    returns. The terminals are not among the sources. *)
Definition Terminal : Type := Command -> option (option error).

Inductive Outcome : Type :=
| OsExit (code : Z) (events : list Event)        (* os.Exit(code) *)
| Returned (err : option error) (events : list Event)
| Blocked (events : list Event).                 (* Run never returns *)

(** What [Run] did, however it ended. *)
Definition eventsOf (o : Outcome) : list Event :=
  match o with
  | OsExit _ ev => ev
  | Returned _ ev => ev
  | Blocked ev => ev
  end.

(** [func (d *Debug) Run() error]: the three arguments of [errors.Join] are
    evaluated from left to right, then the two optional commands are run. *)
Definition Run (commandRun commandRunLogErrorAsWarning : Terminal)
    (d : Debug) (w : World) : Outcome :=
  let ev := [Log LevelInfo "start"] in
  match Getwd w with
  | inr err => OsExit 1 (ev ++ [Log LevelError (Sprintln err)])
  | inl pwd =>
  let ev := ev ++ [Log LevelInfo ("Current directory: " ++ pwd)] in
  let ev := ev ++ [MkdirAllCalled [pwd; "test"; ".artifacts"; "build-image"]] in
  match MkdirAll w with
  | Some err => OsExit 1 (ev ++ [Log LevelError (Sprintln err)])
  | None =>
  let ev := ev ++ [Ran (grypeVersion d)] in
  match commandRun (grypeVersion d) with
  | None => Blocked ev
  | Some e1 =>
  let ev := ev ++ [Ran (syftVersion d)] in
  match commandRun (syftVersion d) with
  | None => Blocked ev
  | Some e2 =>
  let ev := ev ++ [Ran (syftScanImage d)] in
  match commandRun (syftScanImage d) with
  | None => Blocked ev
  | Some e3 =>
  let errs := Join [e1; e2; e3] in
  let ev := ev ++ [RanLogErrorAsWarning (podmanVersion d)] in
  match commandRunLogErrorAsWarning (podmanVersion d) with
  | None => Blocked ev
  | Some _ =>
  let ev := ev ++ [RanLogErrorAsWarning (dockerVersion d)] in
  match commandRunLogErrorAsWarning (dockerVersion d) with
  | None => Blocked ev
  | Some _ => Returned errs (ev ++ [Log LevelInfo "complete"])
  end end end end end end end.

(** A terminal that always returns what [f] gives. *)
Definition returning (f : Command -> option error) : Terminal :=
  fun c => Some (f c).

(** A terminal that returns nil, except on the commands of one tool, where
    it never returns. *)
Definition hangsOn (t : Tool) : Terminal :=
  fun c => match tool c, t with
           | Grype, Grype | Syft, Syft | Podman, Podman | Docker, Docker => None
           | _, _ => Some None
           end.

End DebugMayBlock.

Module DebugSpec.
Import pipelines.Debug.

(** The event is the run of a command, mandatory or optional. *)
Definition isCommand (e : Event) : bool :=
  match e with
  | Ran _ | RanLogErrorAsWarning _ => true
  | Log _ _ | MkdirAllCalled _ => false
  end.

End DebugSpec.
Import DebugSpec.

Module ScanSpec.
Import exec errors pipelines.ImageScan.

Definition sbomPath (p : ImageScan) : Path :=
  PathJoin [Directory (artifactConfig p); SBOMFilename (artifactConfig p)].

Definition grypePath (p : ImageScan) : Path :=
  PathJoin [Directory (artifactConfig p); GrypeFilename (artifactConfig p)].

Definition mockFile : File :=
  {| name := Literal mockSBOMFilename; flag := O_RDONLY |}.

Definition sbomDest (p : ImageScan) : File :=
  {| name := sbomPath p; flag := O_RDONLY |}.

Definition grypeFile (p : ImageScan) : File :=
  {| name := grypePath p; flag := Z.lor O_CREATE O_WRONLY |}.

Definition scanCommand (p : ImageScan) : ScanSBOM :=
  {| sbom := SBOMFilename (artifactConfig p); scanStderr := Stderr p;
     dryRun := DryRunEnabled p |}.

(** The results of the six fallible steps of [Run], in source order. *)
Definition steps (p : ImageScan) (w : World) : list (option error) :=
  [OpenFile w (Literal mockSBOMFilename) O_RDONLY 0;
   OpenFile w (sbomPath p) O_RDONLY 0;
   Copy w (sbomDest p) (FromFile mockFile);
   GrypeRun w (scanCommand p);
   OpenFile w (grypePath p) (Z.lor O_CREATE O_WRONLY) 420;
   Copy w (grypeFile p) FromBuffer].

(** The first non-nil error of a list. *)
Fixpoint firstError (l : list (option error)) : option error :=
  match l with
  | [] => None
  | Some e :: _ => Some e
  | None :: rest => firstError rest
  end.

(** The logger [Run] works with, after its two calls of [With]. *)
Definition runLogger (p : ImageScan) : Logger :=
  (logger p ++ [("dry_run_enabled", AttrBool (DryRunEnabled p))])
  ++ [("artifact_config.directory",
       AttrString (Directory (artifactConfig p)));
      ("artifact_config.sbom_filename",
       AttrString (SBOMFilename (artifactConfig p)));
      ("artifact_config.grype_filename",
       AttrString (GrypeFilename (artifactConfig p)))].

(** What [Run] does for each of its six steps, the call of the step last. *)
Definition segments (p : ImageScan) : list (list Event) :=
  [[LogDebug (runLogger p) "SIMULATED: create SBOM by copying" (sbomPath p);
    OsOpenFile (Literal mockSBOMFilename) O_RDONLY 0];
   [OsOpenFile (sbomPath p) O_RDONLY 0];
   [IoCopy (sbomDest p) (FromFile mockFile)];
   [RanGrype (scanCommand p)];
   [LogDebug (runLogger p) "open grype artifact" (grypePath p);
    OsOpenFile (grypePath p) (Z.lor O_CREATE O_WRONLY) 420];
   [LogDebug (runLogger p) "save grype artifact" (grypePath p);
    IoCopy (grypeFile p) FromBuffer]].

(** How many steps are gone through: up to and including the first that
    fails, all of them when none does. *)
Fixpoint executed (l : list (option error)) : nat :=
  match l with
  | [] => 0
  | Some _ :: _ => 1
  | None :: rest => S (executed rest)
  end.

(** A world in which every step succeeds. *)
Definition quiet : World :=
  {| OpenFile := fun _ _ _ => None; Copy := fun _ _ => None;
     GrypeRun := fun _ => None; size := fun _ => 0 |}.

(** The file was opened for writing: its access mode is not [O_RDONLY]. *)
Definition writable (f : File) : bool :=
  negb (Z.land (flag f) 3 =? 0)%Z.

(** The file system refuses to write bytes through a file that was not
    opened for writing: copying a non-empty file into it fails. *)
Definition refusesReadOnlyWrites (w : World) : Prop :=
  forall dst src,
    writable dst = false -> 0 < size w (name src) ->
    Copy w dst (FromFile src) <> None.


(** [p.DryRunEnabled = enabled] *)
Definition setDryRun (enabled : bool) (p : ImageScan) : ImageScan :=
  {| Stdout := Stdout p; Stderr := Stderr p; logger := logger p;
     DryRunEnabled := enabled; artifactConfig := artifactConfig p |}.

(** A world with a non-empty mock SBOM: every file opens, copying a file
    into one not opened for writing fails, grype succeeds in a dry run
    only. *)
Definition mockPresent : World :=
  {| OpenFile := fun _ _ _ => None;
     Copy := fun dst src =>
               match src with
               | FromFile _ => if writable dst then None
                               else Some (New "write: bad file descriptor")
               | FromBuffer => None
               end;
     GrypeRun := fun c => if dryRun c then None
                          else Some (New "grype: exit status 1");
     size := fun _ => 2048 |}.

End ScanSpec.
Import ScanSpec.

(* ===================================================================== *)
(** ** Execution Options: last write wins, concerns are framed *)
(* ===================================================================== *)

Section OptionsFacts.
Import exec context shell.

Lemma Options_ext (o1 o2 : Options) :
  (forall fld, get fld o1 = get fld o2) -> o1 = o2.
Proof.
  intros H. destruct o1, o2.
  pose proof (H FdryRunEnabled) as H1. pose proof (H Fstdin) as H2.
  pose proof (H Fstdout) as H3. pose proof (H Fstderr) as H4.
  pose proof (H Fctx) as H5. simpl in *. congruence.
Qed.

Lemma denote_frame (c : OptionCall) (o : Options) (fld : Field) :
  belongs fld (concern c) = false -> get fld (denote c o) = get fld o.
Proof. destruct c, fld; simpl; intros H; try reflexivity; discriminate H. Qed.

Lemma denote_agree (c : OptionCall) (o : Options) :
  agreeOutside (concern c) (denote c o) o.
Proof. intros fld H. now apply denote_frame. Qed.

(** Every option function writes values that do not depend on the record
    it is applied to, so agreement outside a concern is kept. *)
Lemma denote_keeps_agree (k : Concern) (h : OptionCall) (o1 o2 : Options) :
  agreeOutside k o1 o2 -> agreeOutside k (denote h o1) (denote h o2).
Proof.
  intros H fld Hf. specialize (H fld Hf).
  destruct h, fld; simpl in *; congruence.
Qed.

Lemma denote_overwrites (g : OptionCall) (o1 o2 : Options) :
  agreeOutside (concern g) o1 o2 -> denote g o1 = denote g o2.
Proof.
  intros H. apply Options_ext. intros fld.
  destruct (belongs fld (concern g)) eqn:B.
  - destruct g, fld; simpl in *; try reflexivity; discriminate B.
  - rewrite !denote_frame by exact B. now apply H.
Qed.

Lemma applyCalls_app (o : Options) (xs ys : list OptionCall) :
  applyCalls o (xs ++ ys) = applyCalls (applyCalls o xs) ys.
Proof. unfold applyCalls, apply. now rewrite map_app, fold_left_app. Qed.

Lemma applyCalls_cons (o : Options) (x : OptionCall) (xs : list OptionCall) :
  applyCalls o (x :: xs) = applyCalls (denote x o) xs.
Proof. reflexivity. Qed.

Lemma applyCalls_keeps_agree (k : Concern) (mid : list OptionCall) :
  forall o1 o2, agreeOutside k o1 o2 ->
                agreeOutside k (applyCalls o1 mid) (applyCalls o2 mid).
Proof.
  induction mid as [|h mid IH]; intros o1 o2 H.
  - exact H.
  - rewrite !applyCalls_cons. apply IH. now apply denote_keeps_agree.
Qed.

Lemma applyCalls_frame (cs : list OptionCall) (fld : Field) :
  forall o, Forall (fun c => belongs fld (concern c) = false) cs ->
            get fld (applyCalls o cs) = get fld o.
Proof.
  induction cs as [|c cs IH]; intros o H.
  - reflexivity.
  - inversion H as [|? ? Hc Hcs]; subst.
    rewrite applyCalls_cons, IH by exact Hcs. now apply denote_frame.
Qed.

Lemma covers_agree (g f : OptionCall) (o1 o2 : Options) :
  covers g f = true ->
  agreeOutside (concern f) o1 o2 -> agreeOutside (concern g) o1 o2.
Proof.
  intros C H fld Hg. apply H.
  destruct (belongs fld (concern f)) eqn:Bf; [|reflexivity].
  unfold covers in C. rewrite forallb_forall in C.
  assert (I : In fld [FdryRunEnabled; Fstdin; Fstdout; Fstderr; Fctx])
    by (destruct fld; simpl; tauto).
  specialize (C fld I). rewrite Bf, Hg in C. discriminate C.
Qed.

Lemma covers_refl_concern (g f : OptionCall) :
  concern f = concern g -> covers g f = true.
Proof. intros H. unfold covers. rewrite H. now destruct (concern g). Qed.

Lemma applyCalls_erases (o : Options) (pre mid post : list OptionCall)
      (f g : OptionCall) :
  covers g f = true ->
  applyCalls o (pre ++ f :: mid ++ g :: post)
  = applyCalls o (pre ++ mid ++ g :: post).
Proof.
  intros C.
  rewrite !applyCalls_app, applyCalls_cons, !applyCalls_app.
  rewrite !applyCalls_cons. f_equal.
  apply denote_overwrites. apply (covers_agree g f _ _ C).
  apply applyCalls_keeps_agree, denote_agree.
Qed.

End OptionsFacts.

(** C7, the claim as stated fails on its second half: WithIO targets the
    I/O triple, yet it changes [stdin], the field of the concern of
    WithStdin, which is a different concern. *)
Lemma options_concerns_overlap :
  let o := shell.applyCalls shell.zeroOptions
             [shell.CallWithStdin (Some (exec.reader 7))] in
  let c := shell.CallWithIO (Some (exec.reader 8)) None None in
  shell.concern c <> shell.StdinOnly
  /\ shell.belongs shell.Fstdin shell.StdinOnly = true
  /\ shell.get shell.Fstdin o = shell.VReader (Some (exec.reader 7))
  /\ shell.get shell.Fstdin (shell.denote c o) = shell.VReader (Some (exec.reader 8))
  /\ ~ (forall (c : shell.OptionCall) (k : shell.Concern) (fld : shell.Field)
               (o : shell.Options),
           shell.concern c <> k -> shell.belongs fld k = true ->
           shell.get fld (shell.denote c o) = shell.get fld o).
Proof.
  cbv zeta. repeat split; try reflexivity; try discriminate.
  intros H.
  specialize (H (shell.CallWithIO (Some (exec.reader 8)) None None)
                shell.StdinOnly shell.Fstdin
                (shell.applyCalls shell.zeroOptions
                   [shell.CallWithStdin (Some (exec.reader 7))])).
  simpl in H. assert (E := H ltac:(discriminate) eq_refl). discriminate E.
Qed.

(** C7, amended. For options built by any sequence of calls of WithDryRun,
    WithIO, WithStdin, WithStdout and WithStderr: when a call [f] is
    followed, at any distance, by a call [g] of the same concern, the final
    [Options] value is the one obtained without [f] (the later call wins,
    and [apply] is a total function: there is no error); the same holds
    when the fields of [g] include those of [f], as for WithIO after a
    single-stream call; a call never changes a field outside its own
    concern, and a sequence of calls never changes a field that belongs to
    none of their concerns. The I/O triple shares its three fields with the
    single-stream concerns. *)
Theorem options_last_write_wins_and_frame :
  (forall (o : shell.Options) (pre mid post : list shell.OptionCall)
          (f g : shell.OptionCall),
      shell.concern f = shell.concern g ->
      shell.applyCalls o (pre ++ f :: mid ++ g :: post)
      = shell.applyCalls o (pre ++ mid ++ g :: post))
  /\ (forall (o : shell.Options) (pre mid post : list shell.OptionCall)
             (f g : shell.OptionCall),
         covers g f = true ->
         shell.applyCalls o (pre ++ f :: mid ++ g :: post)
         = shell.applyCalls o (pre ++ mid ++ g :: post))
  /\ (forall (c : shell.OptionCall) (o : shell.Options) (fld : shell.Field),
         shell.belongs fld (shell.concern c) = false ->
         shell.get fld (shell.denote c o) = shell.get fld o)
  /\ (forall (cs : list shell.OptionCall) (o : shell.Options) (fld : shell.Field),
         Forall (fun c => shell.belongs fld (shell.concern c) = false) cs ->
         shell.get fld (shell.applyCalls o cs) = shell.get fld o)
  /\ (forall fld : shell.Field,
         shell.belongs fld shell.IOTriple
         = shell.belongs fld shell.StdinOnly
           || shell.belongs fld shell.StdoutOnly
           || shell.belongs fld shell.StderrOnly).
Proof.
  split; [|split; [|split; [|split]]].
  - intros o pre mid post f g Hfg.
    apply applyCalls_erases. now apply covers_refl_concern.
  - intros o pre mid post f g C. now apply applyCalls_erases.
  - intros c o fld H. now apply denote_frame.
  - intros cs o fld H. now apply applyCalls_frame.
  - intros fld. now destruct fld.
Qed.

Lemma options_last_write_wins_and_frame_witness :
  shell.applyCalls shell.zeroOptions
    ([shell.CallWithDryRun true]
       ++ shell.CallWithStdin (Some (exec.reader 1))
       :: [shell.CallWithStdout (Some (exec.writer 2))]
       ++ shell.CallWithStdin (Some (exec.reader 3)) :: [shell.CallWithDryRun false])
  = shell.applyCalls shell.zeroOptions
      ([shell.CallWithDryRun true]
         ++ [shell.CallWithStdout (Some (exec.writer 2))]
         ++ shell.CallWithStdin (Some (exec.reader 3)) :: [shell.CallWithDryRun false])
  /\ shell.applyCalls shell.zeroOptions
       ([] ++ shell.CallWithStderr (Some (exec.writer 4))
           :: [] ++ shell.CallWithIO None None None :: [])
     = shell.applyCalls shell.zeroOptions
         ([] ++ [] ++ shell.CallWithIO None None None :: [])
  /\ shell.get shell.Fstdout
       (shell.denote (shell.CallWithStdin (Some (exec.reader 3))) shell.zeroOptions)
     = shell.get shell.Fstdout shell.zeroOptions
  /\ shell.get shell.Fctx
       (shell.applyCalls shell.zeroOptions
          [shell.CallWithDryRun true; shell.CallWithIO None None None])
     = shell.get shell.Fctx shell.zeroOptions.
Proof.
  destruct options_last_write_wins_and_frame as [H1 [H2 [H3 [H4 _]]]].
  split; [|split; [|split]].
  - apply H1. reflexivity.
  - apply H2. reflexivity.
  - apply H3. reflexivity.
  - apply H4. repeat constructor.
Defined.

(* ===================================================================== *)
(** ** The process runner *)
(* ===================================================================== *)

Section RunFacts.
Import exec context shell.

(** When the token fires first and nothing has been delivered on
    [doneChan] by the time [select] is reached, the cancellation case is
    the one taken. *)
Lemma select_cancel_first (c : Context) (w : World) :
  cancelFirst c w = true ->
  ready (done_at w) (select_at w) = false ->
  select c w = Some CaseCtxDone.
Proof.
  unfold cancelFirst, select. intros F R. rewrite R.
  destruct (Done_at c) as [tc|]; [|discriminate F].
  destruct (ready (Some tc) (select_at w)); [reflexivity|].
  destruct (done_at w) as [td|]; [|reflexivity].
  now rewrite F.
Qed.

(** Symmetrically for the child ending first. *)
Lemma select_done_first (c : Context) (w : World) :
  doneFirst c w = true ->
  ready (Done_at c) (select_at w) = false ->
  select c w = Some CaseDoneChan.
Proof.
  unfold doneFirst, select. intros F R. rewrite R.
  destruct (done_at w) as [td|]; [|discriminate F].
  destruct (ready (Some td) (select_at w)); [reflexivity|].
  destruct (Done_at c) as [tc|]; [|reflexivity].
  assert (L : Nat.ltb tc td = false).
  { apply Nat.ltb_ge. apply Nat.ltb_lt in F. lia. }
  now rewrite L, F.
Qed.

(** [select] blocks for ever exactly when neither event ever happens. *)
Lemma select_blocks (c : Context) (w : World) :
  select c w = None <-> Done_at c = None /\ done_at w = None.
Proof.
  unfold select, ready.
  destruct (Done_at c) as [tc|], (done_at w) as [td|]; simpl.
  - destruct (Nat.leb tc (select_at w)), (Nat.leb td (select_at w));
      try (split; [discriminate|intros [? ?]; discriminate]).
    destruct (Nat.ltb tc td); [|destruct (Nat.ltb td tc)];
      split; try discriminate; intros [? ?]; discriminate.
  - destruct (Nat.leb tc (select_at w));
      split; try discriminate; intros [? ?]; discriminate.
  - destruct (Nat.leb td (select_at w));
      split; try discriminate; intros [? ?]; discriminate.
  - split; auto.
Qed.

(** [run] with the dry-run flag set. *)
Lemma run_dry (cmd : Cmd) (o : Options) (w : World) :
  dryRunEnabled o = true ->
  run cmd o w
  = {| returned := Some ExitOK;
       effects := [SlogInfo "shell exec" true (String cmd)];
       options_after := o |}.
Proof. intros D. unfold run. now rewrite D. Qed.

(** [run] when [cmd.Start] fails. *)
Lemma run_not_started (cmd : Cmd) (o : Options) (w : World) (e : error) :
  dryRunEnabled o = false -> start_err w = Some e ->
  run cmd o w
  = {| returned := Some ExitUnknown;
       effects := [SlogInfo "shell exec" false (String cmd);
                   CmdStart {| Path := Path cmd; Args := Args cmd;
                               Stdin := stdin o; Stdout := stdout o;
                               Stderr := stderr o; Err := Err cmd |}];
       options_after := o |}.
Proof. intros D S. unfold run. now rewrite D, S. Qed.

(** [run] past a successful start, by the case [select] takes. *)
Lemma run_started (cmd : Cmd) (o : Options) (w : World) :
  dryRunEnabled o = false -> start_err w = None ->
  returned (run cmd o w)
  = match select (contextOf o) w with
    | None => None
    | Some CaseCtxDone => Some (killOutcome w)
    | Some CaseDoneChan =>
        match wait_err w with
        | None => Some ExitOK
        | Some (ExitError st) => Some (ExitCode st)
        | Some (errorString _) => Some ExitUnknown
        end
    end.
Proof.
  intros D S. unfold run, contextOf, killOutcome. rewrite D, S.
  destruct (ctx o) as [c|];
    (destruct (select _ w) as [[|]|]; [| |reflexivity];
     [destruct (kill_err w); reflexivity
     |destruct (wait_err w) as [[st|msg]|]; reflexivity]).
Qed.

Lemma run_started_kills (cmd : Cmd) (o : Options) (w : World) :
  dryRunEnabled o = false -> start_err w = None ->
  select (contextOf o) w = Some CaseCtxDone ->
  In ProcessKill (effects (run cmd o w)).
Proof.
  intros D S C. unfold run, contextOf in *. rewrite D, S.
  destruct (ctx o) as [c|]; rewrite C;
    destruct (kill_err w); simpl; auto 10.
Qed.

End RunFacts.

(** C1, the claim as stated fails: the token fires at instant 0, the end of
    the child (exit code 3) is delivered at instant 1, and [run] reaches its
    [select] at instant 2 only. Both communications can proceed, [select]
    picks the one on [doneChan], and [run] returns 3, not 231 or 230. *)
Lemma run_cancel_first_may_return_exit_code :
  let o := {| shell.dryRunEnabled := false; shell.stdin := None;
              shell.stdout := None; shell.stderr := None;
              shell.ctx := Some {| context.Done_at := Some 0 |} |} in
  let w := {| shell.start_err := None;
              shell.wait_err := Some (exec.ExitError (exec.Exited 3));
              shell.done_at := Some 1; shell.kill_err := None;
              shell.select_at := 2; shell.select_pick := shell.CaseDoneChan |} in
  cancelFirst (contextOf o) w = true
  /\ shell.returned (shell.run someCmd o w) = Some 3%Z
  /\ ~ In shell.ProcessKill (shell.effects (shell.run someCmd o w))
  /\ ~ (forall cmd o w,
           shell.dryRunEnabled o = false -> shell.start_err w = None ->
           cancelFirst (contextOf o) w = true ->
           shell.returned (shell.run cmd o w) = Some (killOutcome w)).
Proof.
  cbv zeta. split; [reflexivity|]. split; [reflexivity|]. split.
  - simpl. intros [H|[H|[H|[]]]]; discriminate H.
  - intros H.
    specialize (H someCmd
      {| shell.dryRunEnabled := false; shell.stdin := None;
         shell.stdout := None; shell.stderr := None;
         shell.ctx := Some {| context.Done_at := Some 0 |} |}
      {| shell.start_err := None;
         shell.wait_err := Some (exec.ExitError (exec.Exited 3));
         shell.done_at := Some 1; shell.kill_err := None;
         shell.select_at := 2; shell.select_pick := shell.CaseDoneChan |}
      eq_refl eq_refl eq_refl).
    discriminate H.
Qed.

(** C1, amended. For every started invocation whose cancellation token fires
    before the end of the child is delivered, and which has reached its
    [select] before that delivery, [run] calls [Process.Kill] and returns
    231 when the kill succeeds and 230 when it fails; and whenever the
    cancellation case of the [select] is taken, 231 or 230 is returned
    whatever [cmd.Wait] produced. *)
Theorem run_cancelled (cmd : exec.Cmd) (o : shell.Options) (w : shell.World) :
  shell.dryRunEnabled o = false ->
  shell.start_err w = None ->
  shell.select (contextOf o) w = Some shell.CaseCtxDone
  \/ (cancelFirst (contextOf o) w = true
      /\ shell.ready (shell.done_at w) (shell.select_at w) = false) ->
  shell.returned (shell.run cmd o w)
  = Some (match shell.kill_err w with
          | Some _ => shell.ExitKillFailure
          | None => shell.ExitContextCancel
          end)
  /\ In shell.ProcessKill (shell.effects (shell.run cmd o w)).
Proof.
  intros D S H.
  assert (C : shell.select (contextOf o) w = Some shell.CaseCtxDone).
  { destruct H as [H|[F R]]; [exact H|now apply select_cancel_first]. }
  split.
  - rewrite run_started by assumption. now rewrite C.
  - now apply run_started_kills.
Qed.

Lemma run_cancelled_witness :
  let o := {| shell.dryRunEnabled := false; shell.stdin := None;
              shell.stdout := None; shell.stderr := None;
              shell.ctx := Some {| context.Done_at := Some 4 |} |} in
  let w := {| shell.start_err := None;
              shell.wait_err := Some (exec.ExitError (exec.Exited 3));
              shell.done_at := Some 9;
              shell.kill_err := Some (exec.errorString "os: process already finished");
              shell.select_at := 1; shell.select_pick := shell.CaseDoneChan |} in
  shell.returned (shell.run someCmd o w) = Some 230%Z
  /\ In shell.ProcessKill (shell.effects (shell.run someCmd o w)).
Proof.
  cbv zeta. apply run_cancelled.
  - reflexivity.
  - reflexivity.
  - right. split; reflexivity.
Defined.

(** C2, the claim as stated fails: the end of the child (exit code 3) is
    delivered at instant 0, the token fires at instant 1, and [run] reaches
    its [select] at instant 1. Both communications can proceed, [select]
    picks the cancellation case, and [run] returns 230 or 231, not 3. *)
Lemma run_done_first_may_return_cancel :
  let o := {| shell.dryRunEnabled := false; shell.stdin := None;
              shell.stdout := None; shell.stderr := None;
              shell.ctx := Some {| context.Done_at := Some 1 |} |} in
  let w := {| shell.start_err := None;
              shell.wait_err := Some (exec.ExitError (exec.Exited 3));
              shell.done_at := Some 0;
              shell.kill_err := Some (exec.errorString "os: process already finished");
              shell.select_at := 1; shell.select_pick := shell.CaseCtxDone |} in
  doneFirst (contextOf o) w = true
  /\ ownExitCode (shell.wait_err w) = Some 3%Z
  /\ shell.returned (shell.run someCmd o w) = Some 230%Z
  /\ ~ (forall cmd o w code,
           shell.dryRunEnabled o = false -> shell.start_err w = None ->
           doneFirst (contextOf o) w = true ->
           shell.wait_err w = Some (exec.ExitError (exec.Exited code)) ->
           shell.returned (shell.run cmd o w) = Some code).
Proof.
  cbv zeta. split; [reflexivity|]. split; [reflexivity|]. split; [reflexivity|].
  intros H.
  specialize (H someCmd
    {| shell.dryRunEnabled := false; shell.stdin := None;
       shell.stdout := None; shell.stderr := None;
       shell.ctx := Some {| context.Done_at := Some 1 |} |}
    {| shell.start_err := None;
       shell.wait_err := Some (exec.ExitError (exec.Exited 3));
       shell.done_at := Some 0;
       shell.kill_err := Some (exec.errorString "os: process already finished");
       shell.select_at := 1; shell.select_pick := shell.CaseCtxDone |}
    3%Z eq_refl eq_refl eq_refl eq_refl).
  discriminate H.
Qed.

(** C2, amended. For every started invocation whose child's end is delivered
    before the cancellation token fires (or whose token never fires, as
    with a nil [ctx]), and which has reached its [select] before the token
    fires, and whenever the [doneChan] case of the [select] is taken: [run]
    returns the child's own exit code when [cmd.Wait] gave an exit-code
    error of a child that exited, 0 when [cmd.Wait] gave no error, and 232
    when [cmd.Wait] gave an error that is not an exit-code error. *)
Theorem run_child_ended (cmd : exec.Cmd) (o : shell.Options) (w : shell.World) :
  shell.dryRunEnabled o = false ->
  shell.start_err w = None ->
  shell.select (contextOf o) w = Some shell.CaseDoneChan
  \/ (doneFirst (contextOf o) w = true
      /\ shell.ready (context.Done_at (contextOf o)) (shell.select_at w) = false) ->
  (forall code, shell.wait_err w = Some (exec.ExitError (exec.Exited code)) ->
                shell.returned (shell.run cmd o w) = Some code)
  /\ (shell.wait_err w = None ->
      shell.returned (shell.run cmd o w) = Some shell.ExitOK)
  /\ (forall msg, shell.wait_err w = Some (exec.errorString msg) ->
                  shell.returned (shell.run cmd o w) = Some shell.ExitUnknown)
  /\ ~ In shell.ProcessKill (shell.effects (shell.run cmd o w)).
Proof.
  intros D S H.
  assert (C : shell.select (contextOf o) w = Some shell.CaseDoneChan).
  { destruct H as [H|[F R]]; [exact H|now apply select_done_first]. }
  pose proof (run_started cmd o w D S) as R. rewrite C in R.
  repeat split.
  - intros code E. now rewrite R, E.
  - intros E. now rewrite R, E.
  - intros msg E. now rewrite R, E.
  - unfold shell.run, contextOf in *. rewrite D, S.
    destruct (shell.ctx o) as [c|]; rewrite C;
      destruct (exec.As_ExitError (shell.wait_err w));
      try destruct (shell.wait_err w); simpl;
      intros K; repeat (destruct K as [K|K]; try discriminate K); exact K.
Qed.

Lemma run_child_ended_witness :
  let o := shell.newOptions [shell.WithDryRun false] in
  let w := {| shell.start_err := None;
              shell.wait_err := Some (exec.ExitError (exec.Exited 3));
              shell.done_at := Some 6; shell.kill_err := None;
              shell.select_at := 1; shell.select_pick := shell.CaseCtxDone |} in
  shell.returned (shell.run someCmd o w) = Some 3%Z.
Proof.
  cbv zeta.
  refine (proj1 (run_child_ended someCmd
                   (shell.newOptions [shell.WithDryRun false])
                   {| shell.start_err := None;
                      shell.wait_err := Some (exec.ExitError (exec.Exited 3));
                      shell.done_at := Some 6; shell.kill_err := None;
                      shell.select_at := 1;
                      shell.select_pick := shell.CaseCtxDone |}
                   _ _ _) 3%Z _).
  - reflexivity.
  - reflexivity.
  - right. split; reflexivity.
  - reflexivity.
Defined.

(** C3. With [dryRunEnabled] set, [run] returns 0 at once, whatever the
    program and its arguments, whatever the world (a start that would fail,
    a token that has already fired): the only effect is the log record with
    the command that would have run; no process is started, waited for or
    killed, and the options are left as they were. *)
Theorem run_dry_run (cmd : exec.Cmd) (o : shell.Options) (w : shell.World) :
  shell.dryRunEnabled o = true ->
  shell.returned (shell.run cmd o w) = Some shell.ExitOK
  /\ shell.effects (shell.run cmd o w)
     = [shell.SlogInfo "shell exec" true (exec.String cmd)]
  /\ (forall c, ~ In (shell.CmdStart c) (shell.effects (shell.run cmd o w)))
  /\ shell.options_after (shell.run cmd o w) = o.
Proof.
  intros D. rewrite (run_dry cmd o w D). simpl.
  repeat split. intros c [H|[]]. discriminate H.
Qed.

Lemma run_dry_run_witness :
  let o := {| shell.dryRunEnabled := true; shell.stdin := None;
              shell.stdout := None; shell.stderr := None;
              shell.ctx := Some {| context.Done_at := Some 0 |} |} in
  let w := {| shell.start_err := Some (exec.errorString "no such file or directory");
              shell.wait_err := None; shell.done_at := None;
              shell.kill_err := None; shell.select_at := 3;
              shell.select_pick := shell.CaseCtxDone |} in
  shell.returned (shell.run missingCmd o w) = Some 0%Z
  /\ shell.effects (shell.run missingCmd o w)
     = [shell.SlogInfo "shell exec" true "no-such-tool --flag target"].
Proof.
  cbv zeta.
  pose proof (run_dry_run missingCmd
    {| shell.dryRunEnabled := true; shell.stdin := None;
       shell.stdout := None; shell.stderr := None;
       shell.ctx := Some {| context.Done_at := Some 0 |} |}
    {| shell.start_err := Some (exec.errorString "no such file or directory");
       shell.wait_err := None; shell.done_at := None;
       shell.kill_err := None; shell.select_at := 3;
       shell.select_pick := shell.CaseCtxDone |}
    eq_refl) as [H1 [H2 _]].
  split; [exact H1|exact H2].
Defined.

(** C6. Without dry run, when [cmd.Start] fails (binary not found, permission
    denied, any error), [run] returns 232; the command was handed the
    streams of the options, and nothing is waited for or killed. *)
Theorem run_start_failure (cmd : exec.Cmd) (o : shell.Options) (w : shell.World)
        (e : exec.error) :
  shell.dryRunEnabled o = false ->
  shell.start_err w = Some e ->
  shell.returned (shell.run cmd o w) = Some shell.ExitUnknown
  /\ shell.effects (shell.run cmd o w)
     = [shell.SlogInfo "shell exec" false (exec.String cmd);
        shell.CmdStart {| exec.Path := exec.Path cmd; exec.Args := exec.Args cmd;
                          exec.Stdin := shell.stdin o;
                          exec.Stdout := shell.stdout o;
                          exec.Stderr := shell.stderr o;
                          exec.Err := exec.Err cmd |}].
Proof.
  intros D S. rewrite (run_not_started cmd o w e D S). split; reflexivity.
Qed.

Lemma run_start_failure_witness :
  shell.returned
    (shell.run someCmd shell.zeroOptions
       {| shell.start_err := Some (exec.errorString "permission denied");
          shell.wait_err := None; shell.done_at := Some 2;
          shell.kill_err := None; shell.select_at := 0;
          shell.select_pick := shell.CaseDoneChan |})
  = Some 232%Z.
Proof.
  refine (proj1 (run_start_failure someCmd shell.zeroOptions
    {| shell.start_err := Some (exec.errorString "permission denied");
       shell.wait_err := None; shell.done_at := Some 2;
       shell.kill_err := None; shell.select_at := 0;
       shell.select_pick := shell.CaseDoneChan |}
    (exec.errorString "permission denied") _ _)); reflexivity.
Defined.

(** C4, the claim as stated fails: a child ended by signal 9 has no exit
    code of its own; [cmd.Wait] gives an exit-code error whose [ExitCode()]
    is -1, and [run] returns -1, which is none of 0, 230, 231, 232. *)
Lemma run_signaled_child_returns_minus_one :
  let w := {| shell.start_err := None;
              shell.wait_err := Some (exec.ExitError (exec.Signaled 9));
              shell.done_at := Some 5; shell.kill_err := None;
              shell.select_at := 0; shell.select_pick := shell.CaseDoneChan |} in
  shell.returned (shell.run someCmd shell.zeroOptions w) = Some (-1)%Z
  /\ ~ sentinel (-1)
  /\ ownExitCode (shell.wait_err w) = None
  /\ ~ (forall cmd o w r,
           shell.returned (shell.run cmd o w) = Some r ->
           sentinel r \/ ownExitCode (shell.wait_err w) = Some r).
Proof.
  cbv zeta.
  assert (N : ~ sentinel (-1)).
  { unfold sentinel, shell.ExitOK, shell.ExitKillFailure,
      shell.ExitContextCancel, shell.ExitUnknown. lia. }
  split; [reflexivity|]. split; [exact N|]. split; [reflexivity|].
  intros H.
  specialize (H someCmd shell.zeroOptions
    {| shell.start_err := None;
       shell.wait_err := Some (exec.ExitError (exec.Signaled 9));
       shell.done_at := Some 5; shell.kill_err := None;
       shell.select_at := 0; shell.select_pick := shell.CaseDoneChan |}
    (-1)%Z eq_refl).
  destruct H as [H|H]; [exact (N H)|discriminate H].
Qed.

(** C4, amended. Whenever [run] returns, the integer is 0, 230, 231 or 232,
    or it is the value of [ExitCode()] of the exit-code error [cmd.Wait]
    gave, passed through verbatim: the child's own exit code when the child
    exited, and -1 when the child was ended by a signal. [run] returns in
    every world except the one where the child never ends and the token
    never fires. *)
Theorem run_returns_taxonomy (cmd : exec.Cmd) (o : shell.Options)
        (w : shell.World) :
  (forall r, shell.returned (shell.run cmd o w) = Some r ->
             sentinel r
             \/ ownExitCode (shell.wait_err w) = Some r
             \/ (exists sig,
                    shell.wait_err w = Some (exec.ExitError (exec.Signaled sig))
                    /\ r = (-1)%Z))
  /\ (shell.returned (shell.run cmd o w) = None <->
      shell.dryRunEnabled o = false /\ shell.start_err w = None
      /\ context.Done_at (contextOf o) = None /\ shell.done_at w = None).
Proof.
  destruct (shell.dryRunEnabled o) eqn:D.
  - rewrite (run_dry cmd o w D). simpl. split.
    + intros r E. injection E as <-. left. left. reflexivity.
    + split; [discriminate|intros [H _]; discriminate H].
  - destruct (shell.start_err w) as [e|] eqn:S.
    + rewrite (run_not_started cmd o w e D S). simpl. split.
      * intros r E. injection E as <-. left. unfold sentinel. tauto.
      * split; [discriminate|intros [_ [H _]]; discriminate H].
    + rewrite (run_started cmd o w D S).
      pose proof (select_blocks (contextOf o) w) as B.
      destruct (shell.select (contextOf o) w) as [[|]|].
      * split.
        -- intros r E. injection E as <-. left. unfold sentinel, killOutcome.
           destruct (shell.kill_err w); tauto.
        -- split; [discriminate|].
           intros [_ [_ H]]. apply B in H. discriminate H.
      * split.
        -- intros r E.
           destruct (shell.wait_err w) as [[[code|sig]|msg]|];
             injection E as <-.
           ++ right. left. reflexivity.
           ++ right. right. exists sig. split; reflexivity.
           ++ left. unfold sentinel. tauto.
           ++ left. left. reflexivity.
        -- split.
           ++ destruct (shell.wait_err w) as [[st|msg]|]; discriminate.
           ++ intros [_ [_ H]]. apply B in H. discriminate H.
      * split; [discriminate|].
        split; [intros _|reflexivity].
        destruct B as [B _]. specialize (B eq_refl). tauto.
Qed.

Lemma run_returns_taxonomy_witness :
  sentinel 231
  \/ ownExitCode (Some (exec.ExitError (exec.Exited 3))) = Some 231%Z
  \/ (exists sig,
         Some (exec.ExitError (exec.Exited 3))
         = Some (exec.ExitError (exec.Signaled sig))
         /\ 231%Z = (-1)%Z).
Proof.
  refine (proj1 (run_returns_taxonomy someCmd
    {| shell.dryRunEnabled := false; shell.stdin := None;
       shell.stdout := None; shell.stderr := None;
       shell.ctx := Some {| context.Done_at := Some 2 |} |}
    {| shell.start_err := None;
       shell.wait_err := Some (exec.ExitError (exec.Exited 3));
       shell.done_at := Some 7; shell.kill_err := None;
       shell.select_at := 0; shell.select_pick := shell.CaseDoneChan |})
    231%Z _).
  reflexivity.
Defined.

(* ===================================================================== *)
(** ** The container based debug pipeline *)
(* ===================================================================== *)

Section ExecuteFacts.
Import errors pipelines.DebugPipeline.

Variables (a b : string) (ea eb : option error).

Let jobA : string * option error := (a, ea).
Let jobB : string * option error := (b, eb).

Lemma reachable_initial : reachable a ea b eb initial.
Proof.
  unfold reachable; simpl. repeat split; discriminate.
Qed.

Ltac crush_state :=
  repeat match goal with
         | H : _ /\ _ |- _ => destruct H
         end;
  subst; simpl in *;
  repeat split; intros; subst; simpl in *;
  try congruence; try tauto; try discriminate;
  try solve [eauto];
  try solve [match goal with
             | H : forall x, _ = Some x -> _, E : _ = Some _ |- _ =>
                 destruct (H _ E) as [[? ?]|[? ?]];
                 subst; simpl in *; try discriminate; auto
             end];
  try solve [match goal with
             | H : forall x, _ = Some x -> _ |- _ =>
                 destruct (H _ eq_refl) as [[? ?]|[? ?]];
                 subst; simpl in *; try discriminate; auto
             end].

Lemma reachable_step (s : State) (t : Thread) :
  reachable a ea b eb s -> reachable a ea b eb (step jobA jobB s t).
Proof.
  unfold reachable. intros H.
  destruct s as [p j1 j2 dout sinfo g e ev]; simpl in *.
  destruct t; simpl.
  - unfold stepMain; simpl.
    destruct p; simpl; [| |destruct j1, j2; simpl| | |]; crush_state.
  - unfold stepJob1, record; simpl.
    destruct j1 as [| |x|]; simpl; [| |destruct x as [x|], g as [g|]|];
      simpl; crush_state; try (destruct p; crush_state; fail).
  - unfold stepJob2, record; simpl.
    destruct j2 as [| |x|]; simpl; [| |destruct x as [x|], g as [g|]|];
      simpl; crush_state; try (destruct p; crush_state; fail).
Qed.

Lemma runFrom_app (s : State) (xs ys : list Thread) :
  runFrom jobA jobB s (xs ++ ys) = runFrom jobA jobB (runFrom jobA jobB s xs) ys.
Proof. unfold runFrom. apply fold_left_app. Qed.

Lemma reachable_runFrom (schedule : list Thread) :
  forall s, reachable a ea b eb s ->
            reachable a ea b eb (runFrom jobA jobB s schedule).
Proof.
  induction schedule as [|t schedule IH]; intros s H.
  - exact H.
  - simpl. apply IH. now apply reachable_step.
Qed.

Lemma reachable_Execute (schedule : list Thread) :
  reachable a ea b eb (Execute jobA jobB schedule).
Proof. apply reachable_runFrom, reachable_initial. Qed.

(** From a reachable state, one more round of the scheduler that gives
    each thread its turns brings [Execute] to its return. *)
Lemma drain_finishes (s : State) :
  reachable a ea b eb s -> pos (runFrom jobA jobB s drain) = Left.
Proof.
  unfold reachable. intros H.
  destruct s as [p j1 j2 dout sinfo g e ev]; simpl in H.
  destruct H as (_ & _ & _ & _ & _ & _ & _ & H).
  destruct p, j1, j2; simpl in H;
    (repeat match goal with
            | H : _ /\ _ |- _ => destruct H
            end);
    try discriminate; try congruence; reflexivity.
Qed.

(** Once [Execute] has returned, it has written the report and then handed
    back the group's error, and nothing else. *)
Lemma returned_events (s : State) :
  reachable a ea b eb s -> pos s = Left ->
  events s = [Write (report a b); Return (groupErr s)]
  /\ (groupErr s = None <-> ea = None /\ eb = None)
  /\ (forall x, groupErr s = Some x -> ea = Some x \/ eb = Some x).
Proof.
  unfold reachable. intros (_ & _ & _ & _ & G1 & G2 & G3 & H) P.
  rewrite P in H. destruct H as (D1 & D2 & E & Ev).
  rewrite D1 in *. rewrite D2 in *. simpl in *. rewrite E in Ev.
  split; [exact Ev|]. split.
  - split.
    + intros N. split.
      * destruct ea; [exfalso; apply (G1 eq_refl); [discriminate|exact N]|reflexivity].
      * destruct eb; [exfalso; apply (G2 eq_refl); [discriminate|exact N]|reflexivity].
    + intros [Na Nb]. destruct (groupErr s) as [x|]; [|reflexivity].
      destruct (G3 x eq_refl) as [[_ X]|[_ X]]; congruence.
  - intros x X. destruct (G3 x X) as [[_ Y]|[_ Y]]; auto.
Qed.

End ExecuteFacts.

(** C9. For every pair of strings [a] and [b] the two jobs return, and every
    interleaving of the two goroutines with [Execute]: once [Execute] has
    returned it has made exactly one write to its stdout writer, of the
    report "debug output:\n" ++ a ++ "\nsystem information:\n" ++ b ++ "\n",
    before returning; and every schedule can be continued to one under
    which [Execute] returns. The position of each job's output does not
    depend on the schedule, hence not on which job completes first. *)
Theorem Execute_writes_report (a b : string) (ea eb : option errors.error)
        (schedule : list pipelines.DebugPipeline.Thread) :
  (pipelines.DebugPipeline.pos
     (pipelines.DebugPipeline.Execute (a, ea) (b, eb) schedule)
   = pipelines.DebugPipeline.Left ->
   exists e,
     pipelines.DebugPipeline.events
       (pipelines.DebugPipeline.Execute (a, ea) (b, eb) schedule)
     = [pipelines.DebugPipeline.Write
          ("debug output:" ++ errors.nl ++ a ++ errors.nl
           ++ "system information:" ++ errors.nl ++ b ++ errors.nl);
        pipelines.DebugPipeline.Return e])
  /\ pipelines.DebugPipeline.pos
       (pipelines.DebugPipeline.Execute (a, ea) (b, eb)
          (schedule ++ pipelines.DebugPipeline.drain))
     = pipelines.DebugPipeline.Left.
Proof.
  split.
  - intros P.
    destruct (returned_events a b ea eb _ (reachable_Execute a b ea eb schedule) P)
      as [Ev _].
    eexists. exact Ev.
  - unfold pipelines.DebugPipeline.Execute. rewrite runFrom_app.
    apply (drain_finishes a b ea eb). apply reachable_runFrom, reachable_initial.
Qed.

Lemma Execute_writes_report_witness :
  (exists e,
      pipelines.DebugPipeline.events
        (pipelines.DebugPipeline.Execute ("A", None) ("B", None) job1First)
      = [pipelines.DebugPipeline.Write
           ("debug output:" ++ errors.nl ++ "A" ++ errors.nl
            ++ "system information:" ++ errors.nl ++ "B" ++ errors.nl);
         pipelines.DebugPipeline.Return e])
  /\ (exists e,
         pipelines.DebugPipeline.events
           (pipelines.DebugPipeline.Execute ("A", None) ("B", None) job2First)
         = [pipelines.DebugPipeline.Write
              ("debug output:" ++ errors.nl ++ "A" ++ errors.nl
               ++ "system information:" ++ errors.nl ++ "B" ++ errors.nl);
            pipelines.DebugPipeline.Return e]).
Proof.
  split.
  - apply (proj1 (Execute_writes_report "A" "B" None None job1First)).
    reflexivity.
  - apply (proj1 (Execute_writes_report "A" "B" None None job2First)).
    reflexivity.
Defined.

(** C10, the claim as stated fails: the first job returns the string
    "partial" together with an error. The assignment
    [debugOutput, err = jobs.RunDebug(...)] stores that string, and the
    report carries "partial", not the empty string. *)
Lemma Execute_failed_job_contributes_its_string :
  let boom := errors.New "exec failed" in
  let s := pipelines.DebugPipeline.Execute ("partial", Some boom) ("B", None)
             pipelines.DebugPipeline.drain in
  pipelines.DebugPipeline.pos s = pipelines.DebugPipeline.Left
  /\ pipelines.DebugPipeline.events s
     = [pipelines.DebugPipeline.Write
          (pipelines.DebugPipeline.report "partial" "B");
        pipelines.DebugPipeline.Return (Some boom)]
  /\ pipelines.DebugPipeline.report "partial" "B"
     <> pipelines.DebugPipeline.report "" "B"
  /\ ~ (forall a b ea eb schedule,
           ea <> None ->
           pipelines.DebugPipeline.pos
             (pipelines.DebugPipeline.Execute (a, ea) (b, eb) schedule)
           = pipelines.DebugPipeline.Left ->
           exists e,
             pipelines.DebugPipeline.events
               (pipelines.DebugPipeline.Execute (a, ea) (b, eb) schedule)
             = [pipelines.DebugPipeline.Write
                  (pipelines.DebugPipeline.report "" b);
                pipelines.DebugPipeline.Return e]).
Proof.
  cbv zeta. split; [reflexivity|]. split; [reflexivity|]. split.
  - discriminate.
  - intros H.
    destruct (H "partial" "B" (Some (errors.New "exec failed")) None
                pipelines.DebugPipeline.drain ltac:(discriminate) eq_refl)
      as [e E].
    discriminate E.
Qed.

(** C10, amended. When either of the two jobs returns a non-nil error, then
    under every interleaving, once [Execute] has returned: the report was
    formatted and written to the stdout writer before the error was
    returned; the error returned is non-nil and is the error of one of the
    jobs; and the contribution of each job, failed or not, is the string
    that job returned (the empty string exactly when the job returned the
    empty string). *)
Theorem Execute_error_still_writes (a b : string) (ea eb : option errors.error)
        (schedule : list pipelines.DebugPipeline.Thread) :
  ea <> None \/ eb <> None ->
  pipelines.DebugPipeline.pos
    (pipelines.DebugPipeline.Execute (a, ea) (b, eb) schedule)
  = pipelines.DebugPipeline.Left ->
  exists e,
    pipelines.DebugPipeline.events
      (pipelines.DebugPipeline.Execute (a, ea) (b, eb) schedule)
    = [pipelines.DebugPipeline.Write (pipelines.DebugPipeline.report a b);
       pipelines.DebugPipeline.Return (Some e)]
    /\ (ea = Some e \/ eb = Some e).
Proof.
  intros F P.
  destruct (returned_events a b ea eb _ (reachable_Execute a b ea eb schedule) P)
    as (Ev & N & X).
  destruct (pipelines.DebugPipeline.groupErr
              (pipelines.DebugPipeline.Execute (a, ea) (b, eb) schedule))
    as [e|].
  - exists e. split; [exact Ev|]. now apply X.
  - exfalso. destruct (proj1 N eq_refl) as [Na Nb]. tauto.
Qed.

Lemma Execute_error_still_writes_witness :
  exists e,
    pipelines.DebugPipeline.events
      (pipelines.DebugPipeline.Execute
         ("", Some (errors.New "container failed")) ("Linux", None)
         pipelines.DebugPipeline.drain)
    = [pipelines.DebugPipeline.Write
         (pipelines.DebugPipeline.report "" "Linux");
       pipelines.DebugPipeline.Return (Some e)]
    /\ (Some (errors.New "container failed") = Some e \/ None = Some e).
Proof.
  apply Execute_error_still_writes.
  - left. discriminate.
  - reflexivity.
Defined.

(* ===================================================================== *)
(** ** The shell based debug pipeline *)
(* ===================================================================== *)

Section JoinFacts.
Import errors.

(** [nonNil] keeps the non-nil errors, all of them, in the order given. *)
Lemma nonNil_filter (errs : list (option error)) :
  map Some (nonNil errs) = filter isSome errs.
Proof.
  induction errs as [|[e|] errs IH]; simpl; [reflexivity| |exact IH].
  now rewrite IH.
Qed.

Lemma nonNil_nil (errs : list (option error)) :
  nonNil errs = [] <-> Forall (fun e => e = None) errs.
Proof.
  induction errs as [|[e|] errs IH]; simpl.
  - split; auto.
  - split; [discriminate|]. intros H. inversion H. discriminate.
  - rewrite IH. split; [now constructor|]. intros H. now inversion H.
Qed.

Lemma Join_nil (errs : list (option error)) :
  Join errs = None <-> Forall (fun e => e = None) errs.
Proof.
  rewrite <- nonNil_nil. unfold Join.
  destruct (nonNil errs); simpl; split; congruence.
Qed.

Lemma Join_Unwrap (errs : list (option error)) :
  Unwrap (Join errs) = nonNil errs.
Proof. unfold Join. now destruct (nonNil errs). Qed.

Lemma Join_some (errs : list (option error)) (j : error) :
  Join errs = Some j -> j = joinError (nonNil errs).
Proof. unfold Join. destruct (nonNil errs); simpl; congruence. Qed.

End JoinFacts.

Section MayBlockFacts.
Import errors pipelines.Debug.

(** With commands that always return, the two embeddings of [Debug.Run]
    agree. *)
Lemma Run_returning (run warn : Command -> option error) (d : Debug)
      (w : World) :
  DebugMayBlock.Run (DebugMayBlock.returning run) (DebugMayBlock.returning warn)
    d w
  = match pipelines.Debug.Run run warn d w with
    | OsExit code ev => DebugMayBlock.OsExit code ev
    | Returned e ev => DebugMayBlock.Returned e ev
    end.
Proof.
  unfold DebugMayBlock.Run, pipelines.Debug.Run, DebugMayBlock.returning.
  destruct (Getwd w); [|reflexivity].
  destruct (MkdirAll w); reflexivity.
Qed.

(** [Debug.Run], by what the operating system and the five calls answer. *)
Lemma Run_cases (run warn : DebugMayBlock.Terminal) (d : Debug) (w : World) :
  (exists e, Getwd w = inr e
             /\ DebugMayBlock.Run run warn d w
                = DebugMayBlock.OsExit 1
                    [Log LevelInfo "start"; Log LevelError (Sprintln e)])
  \/ (exists pwd e,
         Getwd w = inl pwd /\ MkdirAll w = Some e
         /\ DebugMayBlock.Run run warn d w
            = DebugMayBlock.OsExit 1
                [Log LevelInfo "start";
                 Log LevelInfo ("Current directory: " ++ pwd);
                 MkdirAllCalled [pwd; "test"; ".artifacts"; "build-image"];
                 Log LevelError (Sprintln e)])
  \/ (exists pwd ev,
         Getwd w = inl pwd /\ MkdirAll w = None
         /\ (run (grypeVersion d) = None \/ run (syftVersion d) = None
             \/ run (syftScanImage d) = None \/ warn (podmanVersion d) = None
             \/ warn (dockerVersion d) = None)
         /\ DebugMayBlock.Run run warn d w = DebugMayBlock.Blocked ev
         /\ In (MkdirAllCalled [pwd; "test"; ".artifacts"; "build-image"]) ev)
  \/ (exists pwd e1 e2 e3 o1 o2,
         Getwd w = inl pwd /\ MkdirAll w = None
         /\ run (grypeVersion d) = Some e1 /\ run (syftVersion d) = Some e2
         /\ run (syftScanImage d) = Some e3
         /\ warn (podmanVersion d) = Some o1 /\ warn (dockerVersion d) = Some o2
         /\ DebugMayBlock.Run run warn d w
            = DebugMayBlock.Returned (Join [e1; e2; e3])
                [Log LevelInfo "start";
                 Log LevelInfo ("Current directory: " ++ pwd);
                 MkdirAllCalled [pwd; "test"; ".artifacts"; "build-image"];
                 Ran (grypeVersion d); Ran (syftVersion d);
                 Ran (syftScanImage d);
                 RanLogErrorAsWarning (podmanVersion d);
                 RanLogErrorAsWarning (dockerVersion d);
                 Log LevelInfo "complete"]).
Proof.
  unfold DebugMayBlock.Run.
  destruct (Getwd w) as [pwd|e]; [|left; eauto].
  destruct (MkdirAll w) as [e|]; [right; left; eauto 10|].
  right. right.
  destruct (run (grypeVersion d)) as [e1|];
    [|left; eexists; eexists; repeat split; eauto; simpl; auto].
  destruct (run (syftVersion d)) as [e2|];
    [|left; eexists; eexists; repeat split; eauto; simpl; auto].
  destruct (run (syftScanImage d)) as [e3|];
    [|left; eexists; eexists; repeat split; eauto; simpl; auto].
  destruct (warn (podmanVersion d)) as [o1|];
    [|left; eexists; eexists; repeat split; eauto; simpl; auto 10].
  destruct (warn (dockerVersion d)) as [o2|];
    [|left; eexists; eexists; repeat split; eauto 10; simpl; auto 10].
  right. exists pwd, e1, e2, e3, o1, o2. repeat split; reflexivity.
Qed.

End MayBlockFacts.

(** C5, the claim as stated fails. With every command succeeding,
    [Debug.Run] neither runs a command nor returns when [os.Getwd] fails:
    it logs the error and calls [os.Exit(1)]. And with the three mandatory
    commands succeeding it does not return when the optional podman
    command never returns. *)
Lemma Debug_Run_exits_or_never_returns :
  let d := pipelines.Debug.NewDebug None None in
  let noDir := {| pipelines.Debug.Getwd :=
                    inr (errors.New "getwd: no such file or directory");
                  pipelines.Debug.MkdirAll := None |} in
  DebugMayBlock.Run (DebugMayBlock.returning allSucceed)
    (DebugMayBlock.returning allSucceed) d noDir
  = DebugMayBlock.OsExit 1
      [pipelines.Debug.Log pipelines.Debug.LevelInfo "start";
       pipelines.Debug.Log pipelines.Debug.LevelError
         ("getwd: no such file or directory" ++ errors.nl)]
  /\ DebugMayBlock.Run (DebugMayBlock.returning allSucceed)
       (DebugMayBlock.hangsOn pipelines.Debug.Podman) d workDir
     = DebugMayBlock.Blocked
         [pipelines.Debug.Log pipelines.Debug.LevelInfo "start";
          pipelines.Debug.Log pipelines.Debug.LevelInfo
            "Current directory: /work";
          pipelines.Debug.MkdirAllCalled
            ["/work"; "test"; ".artifacts"; "build-image"];
          pipelines.Debug.Ran (pipelines.Debug.grypeVersion d);
          pipelines.Debug.Ran (pipelines.Debug.syftVersion d);
          pipelines.Debug.Ran (pipelines.Debug.syftScanImage d);
          pipelines.Debug.RanLogErrorAsWarning (pipelines.Debug.podmanVersion d)]
  /\ ~ (forall run warn d w,
           run (pipelines.Debug.grypeVersion d) = Some None ->
           run (pipelines.Debug.syftVersion d) = Some None ->
           run (pipelines.Debug.syftScanImage d) = Some None ->
           exists ev, DebugMayBlock.Run run warn d w
                      = DebugMayBlock.Returned None ev).
Proof.
  cbv zeta. split; [reflexivity|]. split; [reflexivity|].
  intros H.
  destruct (H (DebugMayBlock.returning allSucceed)
              (DebugMayBlock.returning allSucceed)
              (pipelines.Debug.NewDebug None None)
              {| pipelines.Debug.Getwd :=
                   inr (errors.New "getwd: no such file or directory");
                 pipelines.Debug.MkdirAll := None |}
              eq_refl eq_refl eq_refl) as [ev E].
  discriminate E.
Qed.

(** C5, amended. Once [os.Getwd] and [os.MkdirAll] have succeeded, and
    provided each of the five command calls returns, [Debug.Run] runs the
    three mandatory commands (Grype version, Syft version, Syft ScanImage)
    and then the two optional ones, in source order, whatever their
    results, and returns [errors.Join] of the three mandatory results: nil
    exactly when all three succeeded; otherwise one joined error whose
    constituents are the non-nil results in the order of the three calls,
    none dropped, and whose text is their messages separated by newlines.
    What the optional Podman and Docker commands return does not enter the
    returned error. *)
Theorem Debug_Run_joins_mandatory
        (run warn : DebugMayBlock.Terminal)
        (d : pipelines.Debug.Debug) (w : pipelines.Debug.World) (pwd : string)
        (e1 e2 e3 o1 o2 : option errors.error) :
  pipelines.Debug.Getwd w = inl pwd ->
  pipelines.Debug.MkdirAll w = None ->
  run (pipelines.Debug.grypeVersion d) = Some e1 ->
  run (pipelines.Debug.syftVersion d) = Some e2 ->
  run (pipelines.Debug.syftScanImage d) = Some e3 ->
  warn (pipelines.Debug.podmanVersion d) = Some o1 ->
  warn (pipelines.Debug.dockerVersion d) = Some o2 ->
  let errs := errors.Join [e1; e2; e3] in
  DebugMayBlock.Run run warn d w
  = DebugMayBlock.Returned errs
      [pipelines.Debug.Log pipelines.Debug.LevelInfo "start";
       pipelines.Debug.Log pipelines.Debug.LevelInfo ("Current directory: " ++ pwd);
       pipelines.Debug.MkdirAllCalled [pwd; "test"; ".artifacts"; "build-image"];
       pipelines.Debug.Ran (pipelines.Debug.grypeVersion d);
       pipelines.Debug.Ran (pipelines.Debug.syftVersion d);
       pipelines.Debug.Ran (pipelines.Debug.syftScanImage d);
       pipelines.Debug.RanLogErrorAsWarning (pipelines.Debug.podmanVersion d);
       pipelines.Debug.RanLogErrorAsWarning (pipelines.Debug.dockerVersion d);
       pipelines.Debug.Log pipelines.Debug.LevelInfo "complete"]
  /\ (errs = None <-> e1 = None /\ e2 = None /\ e3 = None)
  /\ map Some (errors.Unwrap errs) = filter isSome [e1; e2; e3]
  /\ (forall j, errs = Some j ->
                j = errors.joinError (errors.Unwrap errs)
                /\ errors.Error j
                   = String.concat errors.nl
                       (map errors.Error (errors.Unwrap errs)))
  /\ (forall warn' o1' o2',
         warn' (pipelines.Debug.podmanVersion d) = Some o1' ->
         warn' (pipelines.Debug.dockerVersion d) = Some o2' ->
         DebugMayBlock.Run run warn' d w = DebugMayBlock.Run run warn d w).
Proof.
  intros G M R1 R2 R3 W1 W2 errs.
  assert (E : forall wn p1 p2,
             wn (pipelines.Debug.podmanVersion d) = Some p1 ->
             wn (pipelines.Debug.dockerVersion d) = Some p2 ->
             DebugMayBlock.Run run wn d w
             = DebugMayBlock.Returned errs
                 [pipelines.Debug.Log pipelines.Debug.LevelInfo "start";
                  pipelines.Debug.Log pipelines.Debug.LevelInfo
                    ("Current directory: " ++ pwd);
                  pipelines.Debug.MkdirAllCalled
                    [pwd; "test"; ".artifacts"; "build-image"];
                  pipelines.Debug.Ran (pipelines.Debug.grypeVersion d);
                  pipelines.Debug.Ran (pipelines.Debug.syftVersion d);
                  pipelines.Debug.Ran (pipelines.Debug.syftScanImage d);
                  pipelines.Debug.RanLogErrorAsWarning
                    (pipelines.Debug.podmanVersion d);
                  pipelines.Debug.RanLogErrorAsWarning
                    (pipelines.Debug.dockerVersion d);
                  pipelines.Debug.Log pipelines.Debug.LevelInfo "complete"]).
  { intros wn p1 p2 P1 P2. unfold DebugMayBlock.Run.
    rewrite G, M, R1, R2, R3, P1, P2. reflexivity. }
  split; [|split; [|split; [|split]]].
  - exact (E warn o1 o2 W1 W2).
  - unfold errs. rewrite Join_nil. split.
    + intros H. inversion H as [|? ? H1 H']; subst.
      inversion H' as [|? ? H2 H'']; subst.
      inversion H'' as [|? ? H3 _]; subst. auto.
    + intros (H1 & H2 & H3). repeat constructor; assumption.
  - unfold errs. rewrite Join_Unwrap. apply nonNil_filter.
  - intros j J. unfold errs in *. rewrite Join_Unwrap.
    apply Join_some in J. subst j. split; reflexivity.
  - intros warn' o1' o2' P1 P2.
    rewrite (E warn' o1' o2' P1 P2). symmetry. exact (E warn o1 o2 W1 W2).
Qed.

Lemma Debug_Run_joins_mandatory_witness :
  (exists ev,
      DebugMayBlock.Run (DebugMayBlock.returning syftFails)
        (DebugMayBlock.returning alwaysFails)
        (pipelines.Debug.NewDebug None None) workDir
      = DebugMayBlock.Returned
          (Some (errors.joinError
                   [errors.New "syft version: exit status 127";
                    errors.New "syft scan: exit status 1"])) ev)
  /\ (exists ev,
         DebugMayBlock.Run (DebugMayBlock.returning allSucceed)
           (DebugMayBlock.returning alwaysFails)
           (pipelines.Debug.NewDebug None None) workDir
         = DebugMayBlock.Returned None ev).
Proof.
  split.
  - destruct (Debug_Run_joins_mandatory (DebugMayBlock.returning syftFails)
                (DebugMayBlock.returning alwaysFails)
                (pipelines.Debug.NewDebug None None) workDir "/work"
                None (Some (errors.New "syft version: exit status 127"))
                (Some (errors.New "syft scan: exit status 1"))
                (Some (errors.New "command failed"))
                (Some (errors.New "command failed"))
                eq_refl eq_refl eq_refl eq_refl eq_refl eq_refl eq_refl)
      as [H _].
    eexists. exact H.
  - destruct (Debug_Run_joins_mandatory (DebugMayBlock.returning allSucceed)
                (DebugMayBlock.returning alwaysFails)
                (pipelines.Debug.NewDebug None None) workDir "/work"
                None None None
                (Some (errors.New "command failed"))
                (Some (errors.New "command failed"))
                eq_refl eq_refl eq_refl eq_refl eq_refl eq_refl eq_refl)
      as [H _].
    eexists. exact H.
Defined.

(** C8. A command run through [RunLogErrorAsWarning] hands no error to its
    caller, whatever exit outcome the process runner gives, 232 included; a
    non-success outcome is recorded as one warning-level log event carrying
    that outcome. In [Debug.Run], where it runs the optional Podman and
    Docker version steps, what the terminal returns changes nothing. *)
Theorem RunLogErrorAsWarning_returns_no_error
        (cmd : exec.Cmd) (o : shell.Options) (w : shell.World) :
  pipelines.Debug.err (pipelines.Debug.RunLogErrorAsWarning cmd o w) = None
  /\ (forall code,
         shell.returned (shell.run cmd o w) = Some code ->
         pipelines.Debug.finished (pipelines.Debug.RunLogErrorAsWarning cmd o w)
         = true
         /\ pipelines.Debug.logged (pipelines.Debug.RunLogErrorAsWarning cmd o w)
            = (if (code =? shell.ExitOK)%Z then []
               else [(pipelines.Debug.LevelWarn, code)]))
  /\ (forall run warn warn' d pw,
         pipelines.Debug.Run run warn d pw = pipelines.Debug.Run run warn' d pw).
Proof.
  unfold pipelines.Debug.RunLogErrorAsWarning.
  split; [|split].
  - destruct (shell.returned (shell.run cmd o w)) as [code|]; [|reflexivity].
    destruct (code =? shell.ExitOK)%Z; reflexivity.
  - intros code E. rewrite E.
    destruct (code =? shell.ExitOK)%Z; split; reflexivity.
  - intros run warn warn' d pw. unfold pipelines.Debug.Run.
    destruct (pipelines.Debug.Getwd pw); [|reflexivity].
    destruct (pipelines.Debug.MkdirAll pw); reflexivity.
Qed.

Lemma RunLogErrorAsWarning_returns_no_error_witness :
  let w := {| shell.start_err := Some (exec.errorString "executable file not found");
              shell.wait_err := None; shell.done_at := None;
              shell.kill_err := None; shell.select_at := 0;
              shell.select_pick := shell.CaseDoneChan |} in
  pipelines.Debug.err
    (pipelines.Debug.RunLogErrorAsWarning someCmd shell.zeroOptions w) = None
  /\ pipelines.Debug.finished
       (pipelines.Debug.RunLogErrorAsWarning someCmd shell.zeroOptions w) = true
  /\ pipelines.Debug.logged
       (pipelines.Debug.RunLogErrorAsWarning someCmd shell.zeroOptions w)
     = [(pipelines.Debug.LevelWarn, 232%Z)].
Proof.
  cbv zeta.
  destruct (RunLogErrorAsWarning_returns_no_error someCmd shell.zeroOptions
    {| shell.start_err := Some (exec.errorString "executable file not found");
       shell.wait_err := None; shell.done_at := None;
       shell.kill_err := None; shell.select_at := 0;
       shell.select_pick := shell.CaseDoneChan |}) as [H1 [H2 _]].
  split; [exact H1|]. exact (H2 232%Z eq_refl).
Defined.

(* ===================================================================== *)
(** ** Further facts: the option functions *)
(* ===================================================================== *)

Section MoreOptionsFacts.
Import exec context shell.

Lemma applyCalls_snoc (o : Options) (cs : list OptionCall) (c : OptionCall) :
  applyCalls o (cs ++ [c]) = denote c (applyCalls o cs).
Proof. now rewrite applyCalls_app. Qed.

(** What a call writes into a field of its concern does not depend on the
    record it is applied to. *)
Lemma denote_writes_constant (c : OptionCall) (fld : Field) (o1 o2 : Options) :
  touches fld c = true -> get fld (denote c o1) = get fld (denote c o2).
Proof. destruct c, fld; simpl; intros H; try reflexivity; discriminate H. Qed.

Lemma denote_commute (x y : OptionCall) (o : Options) :
  (forall fld, touches fld x && touches fld y = false) ->
  denote x (denote y o) = denote y (denote x o).
Proof.
  intros D. apply Options_ext. intros fld.
  pose proof (D FdryRunEnabled) as D1. pose proof (D Fstdin) as D2.
  pose proof (D Fstdout) as D3. pose proof (D Fstderr) as D4.
  destruct x, y, fld; simpl in *; try reflexivity; discriminate.
Qed.

Lemma writers_cons (fld : Field) (c : OptionCall) (cs : list OptionCall) :
  writers fld (c :: cs) = (if touches fld c then 1 else 0) + writers fld cs.
Proof. unfold writers. simpl. now destruct (touches fld c). Qed.

Lemma writers_Permutation (fld : Field) (cs cs' : list OptionCall) :
  Permutation cs cs' -> writers fld cs = writers fld cs'.
Proof.
  induction 1 as [|x l l' _ IH|x y l|l l' l'' _ IH1 _ IH2].
  - reflexivity.
  - rewrite !writers_cons. now rewrite IH.
  - rewrite !writers_cons. lia.
  - congruence.
Qed.

Lemma atMostOneWriter_tail (c : OptionCall) (cs : list OptionCall) :
  atMostOneWriter (c :: cs) -> atMostOneWriter cs.
Proof.
  intros H fld. specialize (H fld). rewrite writers_cons in H. lia.
Qed.

Lemma atMostOneWriter_heads (x y : OptionCall) (cs : list OptionCall) :
  atMostOneWriter (x :: y :: cs) ->
  forall fld, touches fld x && touches fld y = false.
Proof.
  intros H fld. specialize (H fld). rewrite !writers_cons in H.
  destruct (touches fld x), (touches fld y); simpl in *; try reflexivity; lia.
Qed.

End MoreOptionsFacts.

(** X1. The value a field ends with after any sequence of calls of the five
    option functions is the one written by the last call whose concern
    includes the field, whatever the starting record and the calls before
    it; when no call of the sequence writes the field, it keeps the value it
    started with. *)
Theorem applyCalls_last_writer (o : shell.Options)
        (cs : list shell.OptionCall) (fld : shell.Field) :
  match find (touches fld) (rev cs) with
  | Some c => forall o', shell.get fld (shell.applyCalls o cs)
                         = shell.get fld (shell.denote c o')
  | None => shell.get fld (shell.applyCalls o cs) = shell.get fld o
  end.
Proof.
  induction cs as [|c cs IH] using rev_ind.
  - reflexivity.
  - rewrite rev_app_distr, applyCalls_snoc. simpl.
    destruct (touches fld c) eqn:T.
    + intros o'. now apply denote_writes_constant.
    + destruct (find (touches fld) (rev cs)) as [c'|].
      * intros o'. rewrite denote_frame by exact T. apply IH.
      * rewrite denote_frame by exact T. exact IH.
Qed.

(** X2. When no field is written by two calls of a sequence, the order of
    the calls does not matter: every permutation of the sequence builds the
    same [Options] value. *)
Theorem applyCalls_order_irrelevant (cs cs' : list shell.OptionCall) :
  Permutation cs cs' ->
  atMostOneWriter cs ->
  forall o, shell.applyCalls o cs = shell.applyCalls o cs'.
Proof.
  induction 1 as [|x l l' P IH|x y l|l l' l'' P1 IH1 P2 IH2]; intros A o.
  - reflexivity.
  - rewrite !applyCalls_cons. apply IH. now apply atMostOneWriter_tail in A.
  - rewrite !applyCalls_cons. f_equal.
    apply denote_commute. intros fld. rewrite andb_comm.
    now apply (atMostOneWriter_heads y x l).
  - rewrite IH1 by exact A. apply IH2.
    intros fld. rewrite <- (writers_Permutation fld l l' P1). apply A.
Qed.

Lemma applyCalls_order_irrelevant_witness :
  shell.applyCalls shell.zeroOptions
    [shell.CallWithStdout (Some (exec.writer 1)); shell.CallWithDryRun true;
     shell.CallWithStdin (Some (exec.reader 0))]
  = shell.applyCalls shell.zeroOptions
      [shell.CallWithDryRun true; shell.CallWithStdin (Some (exec.reader 0));
       shell.CallWithStdout (Some (exec.writer 1))].
Proof.
  apply applyCalls_order_irrelevant.
  - apply Permutation_cons_append with
      (l := [shell.CallWithDryRun true; shell.CallWithStdin (Some (exec.reader 0))]).
  - intros fld. destruct fld; vm_compute; lia.
Defined.

(* ===================================================================== *)
(** ** Further facts: the process runner *)
(* ===================================================================== *)

Section MoreRunFacts.
Import exec context shell.

(** Without a token that fires, [select] can only take the [doneChan] case. *)
Lemma select_no_token (c : Context) (w : World) :
  Done_at c = None ->
  select c w = match done_at w with
               | Some _ => Some CaseDoneChan
               | None => None
               end.
Proof.
  intros N. unfold select, ready. rewrite N.
  destruct (done_at w) as [td|]; [|reflexivity].
  now destruct (Nat.leb td (select_at w)).
Qed.

(** The cancellation case is taken only when the token fires, and no later
    than the instant [run] is at its [select] with the end of the child
    delivered. *)
Lemma select_cancel_fired (c : Context) (w : World) :
  select c w = Some CaseCtxDone ->
  exists tc, Done_at c = Some tc
             /\ (tc <= select_at w
                 \/ match done_at w with
                    | Some td => tc <= td
                    | None => True
                    end).
Proof.
  unfold select, ready.
  destruct (Done_at c) as [tc|]; [|now destruct (done_at w) as [td|];
    [destruct (Nat.leb td (select_at w))|]].
  intros H. exists tc. split; [reflexivity|].
  destruct (Nat.leb tc (select_at w)) eqn:L.
  - left. now apply Nat.leb_le.
  - right. destruct (done_at w) as [td|]; [|exact I].
    destruct (Nat.leb td (select_at w)); [discriminate H|].
    destruct (Nat.ltb tc td) eqn:T.
    + apply Nat.ltb_lt in T. lia.
    + destruct (Nat.ltb td tc) eqn:T'; [discriminate H|].
      apply Nat.ltb_ge in T. apply Nat.ltb_ge in T'. lia.
Qed.

(** The effects of [run], by the way it is left. *)
Lemma run_effects (cmd : Cmd) (o : Options) (w : World) :
  effects (run cmd o w)
  = SlogInfo "shell exec" (dryRunEnabled o) (String cmd)
    :: (if dryRunEnabled o then []
        else CmdStart (startedCmd cmd o)
             :: match start_err w with
                | Some _ => []
                | None =>
                    GoWait
                    :: match select (contextOf o) w with
                       | Some CaseCtxDone => [ProcessKill]
                       | _ => []
                       end
                end).
Proof.
  unfold run, contextOf, startedCmd.
  destruct (dryRunEnabled o); [reflexivity|].
  destruct (start_err w); [reflexivity|].
  destruct (ctx o) as [c|];
    (destruct (select _ w) as [[|]|]; [destruct (kill_err w); reflexivity| |reflexivity];
     destruct (As_ExitError (wait_err w)); [reflexivity|];
     destruct (wait_err w); reflexivity).
Qed.

(** [run] leaves the options as they were, except that a nil [ctx] has
    become the background context once the command was started. *)
Lemma run_options_after (cmd : Cmd) (o : Options) (w : World) :
  options_after (run cmd o w)
  = if dryRunEnabled o then o
    else match start_err w with
         | Some _ => o
         | None => {| dryRunEnabled := dryRunEnabled o; stdin := stdin o;
                      stdout := stdout o; stderr := stderr o;
                      ctx := Some (contextOf o) |}
         end.
Proof.
  unfold run, contextOf.
  destruct (dryRunEnabled o); [reflexivity|].
  destruct (start_err w); [reflexivity|].
  destruct (ctx o) as [c|];
    (destruct (select _ w) as [[|]|]; [destruct (kill_err w); reflexivity| |reflexivity];
     destruct (As_ExitError (wait_err w)); [reflexivity|];
     destruct (wait_err w); reflexivity).
Qed.

(** What [run] returns, in every case. *)
Lemma run_returned (cmd : Cmd) (o : Options) (w : World) :
  returned (run cmd o w)
  = if dryRunEnabled o then Some ExitOK
    else match start_err w with
         | Some _ => Some ExitUnknown
         | None =>
             match select (contextOf o) w with
             | None => None
             | Some CaseCtxDone => Some (killOutcome w)
             | Some CaseDoneChan => Some (waitOutcome w)
             end
         end.
Proof.
  destruct (dryRunEnabled o) eqn:D.
  - now rewrite (run_dry cmd o w D).
  - destruct (start_err w) as [e|] eqn:S.
    + now rewrite (run_not_started cmd o w e D S).
    + rewrite (run_started cmd o w D S). unfold waitOutcome.
      destruct (select (contextOf o) w) as [[|]|]; try reflexivity.
      destruct (wait_err w) as [[st|msg]|]; reflexivity.
Qed.

End MoreRunFacts.

(** X3. Options built by [newOptions] from calls of the five option
    functions never carry a cancellation token ([ctx] stays nil, none of the
    functions sets it). With such options [run] never calls [Process.Kill];
    it fails to return exactly when a started child never ends; and when
    the child ends, the code returned is fixed by the result of [cmd.Wait]
    alone, whatever the scheduling. *)
Theorem run_built_options_never_cancel (cs : list shell.OptionCall)
        (cmd : exec.Cmd) (w : shell.World) :
  let o := shell.newOptions (map shell.denote cs) in
  shell.ctx o = None
  /\ ~ In shell.ProcessKill (shell.effects (shell.run cmd o w))
  /\ (shell.returned (shell.run cmd o w) = None <->
      shell.dryRunEnabled o = false /\ shell.start_err w = None
      /\ shell.done_at w = None)
  /\ (shell.dryRunEnabled o = false -> shell.start_err w = None ->
      shell.done_at w <> None ->
      shell.returned (shell.run cmd o w)
      = Some (match shell.wait_err w with
              | None => shell.ExitOK
              | Some (exec.ExitError st) => exec.ExitCode st
              | Some (exec.errorString _) => shell.ExitUnknown
              end)).
Proof.
  intros o.
  assert (C : shell.ctx o = None).
  { assert (G : shell.get shell.Fctx o = shell.get shell.Fctx shell.zeroOptions).
    { apply (applyCalls_frame cs shell.Fctx shell.zeroOptions).
      apply Forall_forall. intros c _. now destruct c. }
    simpl in G. now injection G. }
  assert (K : contextOf o = context.Background)
    by (unfold contextOf; now rewrite C).
  assert (S : shell.select (contextOf o) w
              = match shell.done_at w with
                | Some _ => Some shell.CaseDoneChan
                | None => None
                end)
    by (apply select_no_token; now rewrite K).
  split; [exact C|]. split; [|split].
  - rewrite run_effects, S.
    destruct (shell.dryRunEnabled o), (shell.start_err w), (shell.done_at w);
      simpl; intros H; repeat (destruct H as [H|H]; try discriminate H); exact H.
  - rewrite run_returned, S.
    destruct (shell.dryRunEnabled o), (shell.start_err w), (shell.done_at w);
      split; try discriminate; try tauto;
      intros (H1 & H2 & H3); discriminate.
  - intros D St Dn. rewrite run_returned, S, D, St.
    destruct (shell.done_at w); [reflexivity|congruence].
Qed.

Lemma run_built_options_never_cancel_witness :
  shell.returned
    (shell.run someCmd
       (shell.newOptions
          (map shell.denote
               [shell.CallWithIO None (Some (exec.writer 1)) (Some (exec.writer 2))]))
       {| shell.start_err := None;
          shell.wait_err := Some (exec.ExitError (exec.Exited 2));
          shell.done_at := Some 4; shell.kill_err := None;
          shell.select_at := 9; shell.select_pick := shell.CaseCtxDone |})
  = Some 2%Z.
Proof.
  refine (proj2 (proj2 (proj2 (run_built_options_never_cancel
    [shell.CallWithIO None (Some (exec.writer 1)) (Some (exec.writer 2))]
    someCmd
    {| shell.start_err := None;
       shell.wait_err := Some (exec.ExitError (exec.Exited 2));
       shell.done_at := Some 4; shell.kill_err := None;
       shell.select_at := 9; shell.select_pick := shell.CaseCtxDone |})))
    _ _ _).
  - reflexivity.
  - reflexivity.
  - discriminate.
Defined.

(** X4. The command [run] starts carries exactly the three streams of the
    options, nil ones included: whatever [Stdin], [Stdout] and [Stderr] the
    command had before are overwritten, while its path, arguments and
    lookup error are kept. [cmd.Start] is called on that command in every
    run that is not a dry run, and on no other command. *)
Theorem run_starts_with_option_streams (cmd c : exec.Cmd) (o : shell.Options)
        (w : shell.World) :
  In (shell.CmdStart c) (shell.effects (shell.run cmd o w)) <->
  shell.dryRunEnabled o = false
  /\ c = {| exec.Path := exec.Path cmd; exec.Args := exec.Args cmd;
            exec.Stdin := shell.stdin o; exec.Stdout := shell.stdout o;
            exec.Stderr := shell.stderr o; exec.Err := exec.Err cmd |}.
Proof.
  rewrite run_effects. unfold startedCmd.
  destruct (shell.dryRunEnabled o).
  - simpl. split.
    + intros [H|[]]. discriminate H.
    + intros [H _]. discriminate H.
  - split.
    + intros [H|[H|H]]; [discriminate H|injection H as <-; now split|].
      destruct (shell.start_err w); [destruct H|].
      destruct H as [H|H]; [discriminate H|].
      destruct (shell.select (contextOf o) w) as [[|]|];
        simpl in H; repeat (destruct H as [H|H]; try discriminate H);
        destruct H.
    + intros [_ ->]. right. left. reflexivity.
Qed.

Lemma run_starts_with_option_streams_witness :
  In (shell.CmdStart
        {| exec.Path := "/usr/bin/grype"; exec.Args := ["grype"; "version"];
           exec.Stdin := None; exec.Stdout := Some (exec.writer 1);
           exec.Stderr := None; exec.Err := None |})
     (shell.effects
        (shell.run
           {| exec.Path := "/usr/bin/grype"; exec.Args := ["grype"; "version"];
              exec.Stdin := Some (exec.reader 0);
              exec.Stdout := Some (exec.writer 5);
              exec.Stderr := Some (exec.writer 6); exec.Err := None |}
           (shell.newOptions [shell.WithStdout (Some (exec.writer 1))])
           {| shell.start_err := None; shell.wait_err := None;
              shell.done_at := Some 1; shell.kill_err := None;
              shell.select_at := 0; shell.select_pick := shell.CaseDoneChan |})).
Proof.
  apply (proj2 (run_starts_with_option_streams
    {| exec.Path := "/usr/bin/grype"; exec.Args := ["grype"; "version"];
       exec.Stdin := Some (exec.reader 0);
       exec.Stdout := Some (exec.writer 5);
       exec.Stderr := Some (exec.writer 6); exec.Err := None |}
    _
    (shell.newOptions [shell.WithStdout (Some (exec.writer 1))])
    {| shell.start_err := None; shell.wait_err := None;
       shell.done_at := Some 1; shell.kill_err := None;
       shell.select_at := 0; shell.select_pick := shell.CaseDoneChan |})).
  split; reflexivity.
Defined.

(** X5. [run] calls [Process.Kill] only on a started child (never in a dry
    run, never after a failed start) whose cancellation token fires, and
    not before the token has fired: the token's instant is no later than
    the instant [run] reaches its [select] or the instant the child's end
    is delivered. Kill is then the last thing [run] does, once, and the
    code returned is 230 or 231. *)
Theorem run_kills_only_fired_token (cmd : exec.Cmd) (o : shell.Options)
        (w : shell.World) :
  In shell.ProcessKill (shell.effects (shell.run cmd o w)) ->
  shell.dryRunEnabled o = false
  /\ shell.start_err w = None
  /\ (exists tc,
         context.Done_at (contextOf o) = Some tc
         /\ (tc <= shell.select_at w
             \/ match shell.done_at w with
                | Some td => tc <= td
                | None => True
                end))
  /\ shell.effects (shell.run cmd o w)
     = [shell.SlogInfo "shell exec" false (exec.String cmd);
        shell.CmdStart (startedCmd cmd o); shell.GoWait; shell.ProcessKill]
  /\ (shell.returned (shell.run cmd o w) = Some shell.ExitKillFailure
      \/ shell.returned (shell.run cmd o w) = Some shell.ExitContextCancel).
Proof.
  rewrite run_effects, run_returned.
  destruct (shell.dryRunEnabled o).
  { intros [H|[]]. discriminate H. }
  destruct (shell.start_err w).
  { intros [H|[H|[]]]; discriminate H. }
  destruct (shell.select (contextOf o) w) as [[|]|] eqn:S.
  - intros _. split; [reflexivity|]. split; [reflexivity|].
    split; [now apply select_cancel_fired|]. split; [reflexivity|].
    unfold killOutcome. destruct (shell.kill_err w); auto.
  - intros [H|[H|[H|[]]]]; discriminate H.
  - intros [H|[H|[H|[]]]]; discriminate H.
Qed.

Lemma run_kills_only_fired_token_witness :
  let o := {| shell.dryRunEnabled := false; shell.stdin := None;
              shell.stdout := None; shell.stderr := None;
              shell.ctx := Some {| context.Done_at := Some 3 |} |} in
  let w := {| shell.start_err := None; shell.wait_err := None;
              shell.done_at := None; shell.kill_err := None;
              shell.select_at := 1; shell.select_pick := shell.CaseDoneChan |} in
  shell.returned (shell.run someCmd o w) = Some shell.ExitKillFailure
  \/ shell.returned (shell.run someCmd o w) = Some shell.ExitContextCancel.
Proof.
  cbv zeta.
  refine (proj2 (proj2 (proj2 (proj2 (run_kills_only_fired_token someCmd
    {| shell.dryRunEnabled := false; shell.stdin := None;
       shell.stdout := None; shell.stderr := None;
       shell.ctx := Some {| context.Done_at := Some 3 |} |}
    {| shell.start_err := None; shell.wait_err := None;
       shell.done_at := None; shell.kill_err := None;
       shell.select_at := 1; shell.select_pick := shell.CaseDoneChan |}
    _))))).
  simpl. auto 10.
Defined.

(** X6. [run] writes to the caller's [Options] at most the [ctx] field, and
    only to replace nil by the background context after a successful
    start. Options that went through a run can be used again: a later run
    with them returns the same code and has the same effects as a run with
    the options as they were before. *)
Theorem run_reuse_options (cmd cmd' : exec.Cmd) (o : shell.Options)
        (w w' : shell.World) :
  let o' := shell.options_after (shell.run cmd o w) in
  shell.dryRunEnabled o' = shell.dryRunEnabled o
  /\ shell.stdin o' = shell.stdin o
  /\ shell.stdout o' = shell.stdout o
  /\ shell.stderr o' = shell.stderr o
  /\ (shell.ctx o' = shell.ctx o
      \/ (shell.ctx o = None /\ shell.ctx o' = Some context.Background
          /\ shell.dryRunEnabled o = false /\ shell.start_err w = None))
  /\ shell.returned (shell.run cmd' o' w') = shell.returned (shell.run cmd' o w')
  /\ shell.effects (shell.run cmd' o' w') = shell.effects (shell.run cmd' o w').
Proof.
  intros o'. unfold o'. rewrite run_options_after.
  destruct (shell.dryRunEnabled o) eqn:D.
  { repeat split; auto. }
  destruct (shell.start_err w) eqn:S.
  { repeat split; auto. }
  split; [reflexivity|]. split; [reflexivity|]. split; [reflexivity|].
  split; [reflexivity|]. split; [|split].
  - simpl. unfold contextOf. destruct (shell.ctx o); [left; reflexivity|].
    right. repeat split; auto.
  - rewrite !run_returned. unfold contextOf. simpl. now rewrite D.
  - rewrite !run_effects. unfold contextOf, startedCmd. simpl. now rewrite D.
Qed.

(* ===================================================================== *)
(** ** Further facts: the debug pipelines *)
(* ===================================================================== *)

(** X7. [Debug.Run] returns to its caller exactly when [os.Getwd] and
    [os.MkdirAll] both succeed and each of its five command calls returns.
    When [os.Getwd] fails, or the artifact directory cannot be created, it
    logs the error and ends the process with [os.Exit(1)] without running
    any command, mandatory or optional. The artifact directory is created
    whenever the working directory is known, also when [DryRunEnabled] is
    set. *)
Theorem Debug_Run_setup
        (run warn : DebugMayBlock.Terminal)
        (d : pipelines.Debug.Debug) (w : pipelines.Debug.World) :
  ((exists err ev, DebugMayBlock.Run run warn d w
                   = DebugMayBlock.Returned err ev) <->
   (exists pwd, pipelines.Debug.Getwd w = inl pwd)
   /\ pipelines.Debug.MkdirAll w = None
   /\ run (pipelines.Debug.grypeVersion d) <> None
   /\ run (pipelines.Debug.syftVersion d) <> None
   /\ run (pipelines.Debug.syftScanImage d) <> None
   /\ warn (pipelines.Debug.podmanVersion d) <> None
   /\ warn (pipelines.Debug.dockerVersion d) <> None)
  /\ (forall e, pipelines.Debug.Getwd w = inr e
                \/ ((exists pwd, pipelines.Debug.Getwd w = inl pwd)
                    /\ pipelines.Debug.MkdirAll w = Some e) ->
                exists ev,
                  DebugMayBlock.Run run warn d w
                  = DebugMayBlock.OsExit 1
                      (ev ++ [pipelines.Debug.Log pipelines.Debug.LevelError
                                (errors.Error e ++ errors.nl)])
                  /\ filter isCommand ev = [])
  /\ (forall pwd, pipelines.Debug.Getwd w = inl pwd ->
                  In (pipelines.Debug.MkdirAllCalled
                        [pwd; "test"; ".artifacts"; "build-image"])
                     (DebugMayBlock.eventsOf (DebugMayBlock.Run run warn d w))).
Proof.
  destruct (Run_cases run warn d w)
    as [(e0 & G & R)|[(pwd & e1 & G & M & R)
       |[(pwd & ev & G & M & N & R & I)
        |(pwd & e1 & e2 & e3 & o1 & o2 & G & M & R1 & R2 & R3 & W1 & W2 & R)]]];
    rewrite R.
  - split; [|split].
    + split; [intros (? & ? & H); discriminate H|].
      intros [[pwd H] _]. congruence.
    + intros e [H|[[pwd H] _]]; [|congruence].
      assert (e = e0) by congruence. subst e.
      exists [pipelines.Debug.Log pipelines.Debug.LevelInfo "start"].
      split; reflexivity.
    + intros pwd H. congruence.
  - split; [|split].
    + split; [intros (? & ? & H); discriminate H|].
      intros (_ & H & _). congruence.
    + intros e [H|[_ H]]; [congruence|].
      assert (e = e1) by congruence. subst e.
      exists [pipelines.Debug.Log pipelines.Debug.LevelInfo "start";
              pipelines.Debug.Log pipelines.Debug.LevelInfo
                ("Current directory: " ++ pwd);
              pipelines.Debug.MkdirAllCalled
                [pwd; "test"; ".artifacts"; "build-image"]].
      split; reflexivity.
    + intros pwd' H. assert (pwd' = pwd) by congruence. subst pwd'.
      simpl. auto.
  - split; [|split].
    + split; [intros (? & ? & H); discriminate H|].
      intros (_ & _ & N1 & N2 & N3 & N4 & N5).
      destruct N as [N|[N|[N|[N|N]]]]; congruence.
    + intros e [H|[_ H]]; congruence.
    + intros pwd' H. assert (pwd' = pwd) by congruence. subst pwd'. exact I.
  - split; [|split].
    + split; [|intros _; eauto].
      intros _. split; [eauto|]. repeat split; congruence.
    + intros e [H|[_ H]]; congruence.
    + intros pwd' H. assert (pwd' = pwd) by congruence. subst pwd'.
      simpl. auto.
Qed.

Lemma Debug_Run_setup_witness :
  exists ev,
    DebugMayBlock.Run (DebugMayBlock.returning allSucceed)
      (DebugMayBlock.returning allSucceed)
      {| pipelines.Debug.Stdout := None; pipelines.Debug.Stderr := None;
         pipelines.Debug.DryRunEnabled := true |}
      {| pipelines.Debug.Getwd := inl "/work";
         pipelines.Debug.MkdirAll := Some (errors.New "mkdir: permission denied") |}
    = DebugMayBlock.OsExit 1
        (ev ++ [pipelines.Debug.Log pipelines.Debug.LevelError
                  (errors.Error (errors.New "mkdir: permission denied")
                   ++ errors.nl)])
    /\ filter isCommand ev = [].
Proof.
  apply (proj1 (proj2 (Debug_Run_setup (DebugMayBlock.returning allSucceed)
    (DebugMayBlock.returning allSucceed)
    {| pipelines.Debug.Stdout := None; pipelines.Debug.Stderr := None;
       pipelines.Debug.DryRunEnabled := true |}
    {| pipelines.Debug.Getwd := inl "/work";
       pipelines.Debug.MkdirAll := Some (errors.New "mkdir: permission denied") |}))).
  right. split; [exists "/work"; reflexivity|reflexivity].
Defined.

Section MoreExecuteFacts.
Import errors pipelines.DebugPipeline.

Variables (a b : string) (ea eb : option error).



End MoreExecuteFacts.

(** X8. [errGroup.Wait] is a barrier: under every schedule, complete or not,
    [Execute] has written nothing, or the report only, or the report and
    then its return; it writes only once both goroutines are done and both
    result variables hold what the jobs returned; and it returns only after
    the write. *)
Theorem Execute_waits_for_both_jobs (a b : string) (ea eb : option errors.error)
        (schedule : list pipelines.DebugPipeline.Thread) :
  let s := pipelines.DebugPipeline.Execute (a, ea) (b, eb) schedule in
  (pipelines.DebugPipeline.events s = []
   \/ pipelines.DebugPipeline.events s
      = [pipelines.DebugPipeline.Write (pipelines.DebugPipeline.report a b)]
   \/ pipelines.DebugPipeline.events s
      = [pipelines.DebugPipeline.Write (pipelines.DebugPipeline.report a b);
         pipelines.DebugPipeline.Return (pipelines.DebugPipeline.groupErr s)])
  /\ (pipelines.DebugPipeline.events s <> [] ->
      pipelines.DebugPipeline.job1 s = pipelines.DebugPipeline.Done
      /\ pipelines.DebugPipeline.job2 s = pipelines.DebugPipeline.Done
      /\ pipelines.DebugPipeline.debugOutput s = a
      /\ pipelines.DebugPipeline.systemInfo s = b)
  /\ (pipelines.DebugPipeline.pos s = pipelines.DebugPipeline.Left <->
      pipelines.DebugPipeline.events s
      = [pipelines.DebugPipeline.Write (pipelines.DebugPipeline.report a b);
         pipelines.DebugPipeline.Return (pipelines.DebugPipeline.groupErr s)]).
Proof.
  intros s.
  pose proof (reachable_Execute a b ea eb schedule) as R. fold s in R.
  destruct R as (O1 & O2 & _ & _ & _ & _ & _ & P).
  destruct (pipelines.DebugPipeline.pos s).
  - destruct P as (_ & _ & E). rewrite E.
    split; [auto|]. split; [congruence|]. split; discriminate.
  - destruct P as (_ & _ & E). rewrite E.
    split; [auto|]. split; [congruence|]. split; discriminate.
  - destruct P as (_ & _ & E). rewrite E.
    split; [auto|]. split; [congruence|]. split; discriminate.
  - destruct P as (_ & _ & _ & E). rewrite E.
    split; [auto|]. split; [congruence|]. split; discriminate.
  - destruct P as (D1 & D2 & _ & E). rewrite E.
    rewrite D1 in O1. rewrite D2 in O2.
    split; [auto|]. split; [auto|]. split; discriminate.
  - destruct P as (D1 & D2 & Er & E). rewrite E, Er.
    rewrite D1 in O1. rewrite D2 in O2.
    split; [auto|]. split; [auto|]. split; reflexivity.
Qed.

Lemma Execute_waits_for_both_jobs_witness :
  pipelines.DebugPipeline.job1
    (pipelines.DebugPipeline.Execute ("A", None) ("B", None) job2First)
  = pipelines.DebugPipeline.Done
  /\ pipelines.DebugPipeline.job2
       (pipelines.DebugPipeline.Execute ("A", None) ("B", None) job2First)
     = pipelines.DebugPipeline.Done
  /\ pipelines.DebugPipeline.debugOutput
       (pipelines.DebugPipeline.Execute ("A", None) ("B", None) job2First) = "A"
  /\ pipelines.DebugPipeline.systemInfo
       (pipelines.DebugPipeline.Execute ("A", None) ("B", None) job2First) = "B".
Proof.
  apply (proj1 (proj2 (Execute_waits_for_both_jobs "A" "B" None None job2First))).
  discriminate.
Defined.

(** X9. Under every schedule that lets it return, [Execute] returns nil
    exactly when both jobs returned a nil error. *)
Theorem Execute_returns_nil_iff (a b : string) (ea eb : option errors.error)
        (schedule : list pipelines.DebugPipeline.Thread) :
  pipelines.DebugPipeline.pos
    (pipelines.DebugPipeline.Execute (a, ea) (b, eb) schedule)
  = pipelines.DebugPipeline.Left ->
  (In (pipelines.DebugPipeline.Return None)
      (pipelines.DebugPipeline.events
         (pipelines.DebugPipeline.Execute (a, ea) (b, eb) schedule)) <->
   ea = None /\ eb = None).
Proof.
  intros P.
  destruct (returned_events a b ea eb _ (reachable_Execute a b ea eb schedule) P)
    as (Ev & N & _).
  rewrite Ev. rewrite <- N. split.
  - intros [H|[H|[]]]; [discriminate H|]. now injection H.
  - intros H. rewrite H. simpl. auto.
Qed.

Lemma Execute_returns_nil_iff_witness :
  In (pipelines.DebugPipeline.Return None)
     (pipelines.DebugPipeline.events
        (pipelines.DebugPipeline.Execute ("A", None) ("B", None) job1First)) <->
  @None errors.error = None /\ @None errors.error = None.
Proof.
  apply (Execute_returns_nil_iff "A" "B" None None job1First). reflexivity.
Defined.



(* ===================================================================== *)
(** ** Further facts: the image scan pipeline *)
(* ===================================================================== *)

Section ScanFacts.
Import errors pipelines.ImageScan.

Lemma firstError_none (l : list (option error)) :
  firstError l = None <-> Forall (fun e => e = None) l.
Proof.
  induction l as [|[e|] l IH]; simpl.
  - split; auto.
  - split; [discriminate|]. intros H. inversion H. discriminate.
  - rewrite IH. split; [now constructor|]. intros H. now inversion H.
Qed.

(** Case analysis on the results of the steps [Run] goes through. *)
Ltac scan_cases :=
  unfold Run, steps, sbomDest, mockFile, grypeFile, scanCommand, sbomPath,
    grypePath; cbv zeta;
  cbn [Stdout Stderr logger DryRunEnabled artifactConfig];
  repeat match goal with
         | |- context [match ?x with Some _ => _ | None => _ end] =>
             destruct x eqn:?
         end.

Lemma Run_err_steps (p : ImageScan) (w : World) :
  err (Run p w) = firstError (steps p w).
Proof. scan_cases; reflexivity. Qed.

Lemma Run_events_prefix (p : ImageScan) (w : World) :
  exists rest, events (Run p quiet) = events (Run p w) ++ rest.
Proof.
  unfold Run at 1. cbv zeta. simpl.
  scan_cases; simpl; eexists; reflexivity.
Qed.

Lemma Run_grype_after_files (p : ImageScan) (w : World) (c : ScanSBOM) :
  In (RanGrype c) (events (Run p w)) ->
  c = scanCommand p /\ firstError (firstn 3 (steps p w)) = None.
Proof.
  scan_cases; simpl; intros H;
    repeat (destruct H as [H|H]; try discriminate H);
    try contradiction;
    injection H as <-; split; reflexivity.
Qed.

Lemma Run_artifact_after_grype (p : ImageScan) (w : World) (n : Path)
      (perm : Z) :
  In (OsOpenFile n (Z.lor O_CREATE O_WRONLY) perm) (events (Run p w)) ->
  n = grypePath p /\ firstError (firstn 4 (steps p w)) = None.
Proof.
  scan_cases; simpl; intros H;
    repeat (destruct H as [H|H]; try discriminate H);
    try contradiction;
    injection H as <- <-; split; reflexivity.
Qed.

End ScanFacts.

(** X11. [ImageScan.Run] fails fast: the error it returns is the first
    non-nil result among its six steps in source order (open the mock
    SBOM, open the SBOM artifact, copy, run grype, open the grype artifact,
    copy the grype output), and it returns nil exactly when all six
    succeed. *)
Theorem ImageScan_Run_first_error (p : pipelines.ImageScan.ImageScan)
        (w : pipelines.ImageScan.World) :
  pipelines.ImageScan.err (pipelines.ImageScan.Run p w)
  = firstError (steps p w)
  /\ (pipelines.ImageScan.err (pipelines.ImageScan.Run p w) = None <->
      Forall (fun e => e = None) (steps p w)).
Proof.
  split; [apply Run_err_steps|].
  rewrite Run_err_steps. apply firstError_none.
Qed.

(** What [ImageScan.Run] did is exactly what belongs to the steps it went
    through. *)
Lemma Run_events_exact (p : pipelines.ImageScan.ImageScan)
      (w : pipelines.ImageScan.World) :
  pipelines.ImageScan.events (pipelines.ImageScan.Run p w)
  = List.concat (firstn (executed (steps p w)) (segments p)).
Proof.
  unfold pipelines.ImageScan.Run, steps, segments, runLogger, sbomDest,
    mockFile, grypeFile, scanCommand, sbomPath, grypePath.
  cbv zeta.
  cbn [pipelines.ImageScan.Stdout pipelines.ImageScan.Stderr
       pipelines.ImageScan.logger pipelines.ImageScan.DryRunEnabled
       pipelines.ImageScan.artifactConfig].
  repeat match goal with
         | |- context [match ?x with Some _ => _ | None => _ end] =>
             destruct x
         end; reflexivity.
Qed.

(** X12. [ImageScan.Run] does nothing after the step that failed: what it
    did is exactly what belongs to the steps up to and including the first
    one that failed (to all six when none failed), hence an initial part
    of what it does when every step succeeds. The grype scan is run only
    after the two files were opened and the mock SBOM was copied, and the
    grype artifact is created (opened with O_CREATE|O_WRONLY) only after
    grype returned no error. *)
Theorem ImageScan_Run_stops_at_failure (p : pipelines.ImageScan.ImageScan)
        (w : pipelines.ImageScan.World) :
  pipelines.ImageScan.events (pipelines.ImageScan.Run p w)
  = List.concat (firstn (executed (steps p w)) (segments p))
  /\ (exists rest,
         pipelines.ImageScan.events (pipelines.ImageScan.Run p quiet)
         = pipelines.ImageScan.events (pipelines.ImageScan.Run p w) ++ rest)
  /\ (forall c,
         In (pipelines.ImageScan.RanGrype c)
            (pipelines.ImageScan.events (pipelines.ImageScan.Run p w)) ->
         c = scanCommand p /\ firstError (firstn 3 (steps p w)) = None)
  /\ (forall n perm,
         In (pipelines.ImageScan.OsOpenFile n
               (Z.lor pipelines.ImageScan.O_CREATE pipelines.ImageScan.O_WRONLY)
               perm)
            (pipelines.ImageScan.events (pipelines.ImageScan.Run p w)) ->
         n = grypePath p /\ firstError (firstn 4 (steps p w)) = None).
Proof.
  split; [apply Run_events_exact|].
  split; [apply Run_events_prefix|]. split.
  - intros c. apply Run_grype_after_files.
  - intros n perm. apply Run_artifact_after_grype.
Qed.

Lemma ImageScan_Run_stops_at_failure_witness :
  let p := setDryRun true
             (pipelines.ImageScan.NewImageScan "/tmp" None None) in
  let c := {| pipelines.ImageScan.sbom := "sbom.json";
              pipelines.ImageScan.scanStderr := None;
              pipelines.ImageScan.dryRun := true |} in
  c = scanCommand p /\ firstError (firstn 3 (steps p quiet)) = None.
Proof.
  cbv zeta.
  apply (proj1 (proj2 (proj2 (ImageScan_Run_stops_at_failure
    (setDryRun true (pipelines.ImageScan.NewImageScan "/tmp" None None))
    quiet)))).
  simpl. auto 10.
Defined.



(** X14. [ImageScan.Run] opens the SBOM artifact with [os.Open], that is
    read-only, and then uses it as the destination of [io.Copy]. On a file
    system that refuses to write bytes through a file not opened for
    writing, a non-empty mock SBOM therefore makes [Run] return an error,
    and grype is never run nor the grype artifact created. *)
Theorem ImageScan_Run_read_only_destination
        (p : pipelines.ImageScan.ImageScan) (w : pipelines.ImageScan.World) :
  refusesReadOnlyWrites w ->
  0 < pipelines.ImageScan.size w
        (pipelines.ImageScan.Literal pipelines.ImageScan.mockSBOMFilename) ->
  writable (sbomDest p) = false
  /\ pipelines.ImageScan.err (pipelines.ImageScan.Run p w) <> None
  /\ (forall c,
         ~ In (pipelines.ImageScan.RanGrype c)
              (pipelines.ImageScan.events (pipelines.ImageScan.Run p w)))
  /\ (forall n perm,
         ~ In (pipelines.ImageScan.OsOpenFile n
                 (Z.lor pipelines.ImageScan.O_CREATE
                        pipelines.ImageScan.O_WRONLY) perm)
              (pipelines.ImageScan.events (pipelines.ImageScan.Run p w))).
Proof.
  intros L S.
  assert (C : pipelines.ImageScan.Copy w (sbomDest p)
                (pipelines.ImageScan.FromFile mockFile) <> None)
    by (apply L; [reflexivity|exact S]).
  assert (F3 : firstError (firstn 3 (steps p w)) <> None).
  { unfold steps. simpl.
    destruct (pipelines.ImageScan.OpenFile w
                (pipelines.ImageScan.Literal pipelines.ImageScan.mockSBOMFilename)
                pipelines.ImageScan.O_RDONLY 0); [discriminate|].
    destruct (pipelines.ImageScan.OpenFile w (sbomPath p)
                pipelines.ImageScan.O_RDONLY 0); [discriminate|].
    destruct (pipelines.ImageScan.Copy w (sbomDest p)
                (pipelines.ImageScan.FromFile mockFile)); [discriminate|].
    now elim C. }
  split; [reflexivity|]. split; [|split].
  - rewrite Run_err_steps. intros N. apply F3.
    apply firstError_none. apply firstError_none in N.
    unfold steps in *. simpl.
    inversion N as [|? ? H1 N1]; subst. inversion N1 as [|? ? H2 N2]; subst.
    inversion N2 as [|? ? H3 _]; subst. repeat constructor; assumption.
  - intros c H. apply Run_grype_after_files in H. now apply F3.
  - intros n perm H. apply Run_artifact_after_grype in H.
    destruct H as [_ H]. apply F3.
    apply firstError_none. apply firstError_none in H.
    unfold steps in *. simpl in *.
    inversion H as [|? ? H1 N1]; subst. inversion N1 as [|? ? H2 N2]; subst.
    inversion N2 as [|? ? H3 _]; subst. repeat constructor; assumption.
Qed.

Lemma ImageScan_Run_read_only_destination_witness :
  let p := pipelines.ImageScan.NewImageScan "/tmp" None None in
  writable (sbomDest p) = false
  /\ pipelines.ImageScan.err (pipelines.ImageScan.Run p mockPresent) <> None.
Proof.
  cbv zeta.
  destruct (ImageScan_Run_read_only_destination
    (pipelines.ImageScan.NewImageScan "/tmp" None None) mockPresent)
    as (H1 & H2 & _).
  - intros dst src W _. simpl. rewrite W. discriminate.
  - simpl. lia.
  - split; [exact H1|exact H2].
Defined.
